(** * The debugger frame of rpcs3 (rpcs3/rpcs3qt/debugger_frame.cpp)

    A shallow embedding of the control logic of [debugger_frame]: the
    resolution of the selected thread ([get_cpu]), the thread list refresh
    ([UpdateUnitList]), the selection ([OnSelectUnit]), the poll
    ([UpdateUI], [DoUpdate]), stepping ([DoStep]), the run/pause button and
    the address evaluation, followed by the properties the specification
    states about them.

    The frame runs on the GUI thread only.  The emulator side (threads, id
    manager, counters, memory) is a [world] value that the frame reads; the
    two places that write a thread's flags ([atomic_op]) return the new
    world.  Calls made on widgets and collaborators that are not part of the
    file are recorded, in order, in the [emitted] trace of the frame. *)

From Stdlib Require Import ZArith NArith Lia Bool List Ascii String.
From stdpp Require Import base option gmap strings list.

Local Open Scope Z_scope.

(** ** Machine integers

    Addresses, ids and program counters are [u32] values, carried as [Z];
    [wrap32] is written where the source computes on them.  [umax] is the
    all-ones [u32] that the source also writes [-1] and [UINT32_MAX]. *)

Definition wrap32 (z : Z) : Z := z mod 2 ^ 32.
Definition umax : Z := 2 ^ 32 - 1.

(** ** Thread flags: [bs_t<cpu_flag>]

    The enumeration [cpu_flag] is declared in Emu/CPU/CPUThread.h; the file
    names five of its members.  The bit each one occupies in the 32-bit set
    is a parameter of the development ([flag_bit] below). *)

Module cpu_flag.
Inductive t : Set := exit | wait | dbg_global_pause | dbg_pause | dbg_step.
End cpu_flag.

Definition bs_t : Set := N.

(** The bit set class is declared outside the file as well; its operators
    are the usual ones: [+] adds flags, [-] removes them, [&] tests for a
    common flag when read as a condition. *)
Definition bs_add (s r : bs_t) : bs_t := N.lor s r.
Definition bs_sub (s r : bs_t) : bs_t := N.ldiff s r.
Definition bs_and (s r : bs_t) : bool := negb (N.land s r =? 0)%N.

(** ** Emulator side *)

(** Modelled from the spec: the lifecycle state of the emulation
    ([system_state], Emu/System.h), an enumeration with [stopped], [running]
    and [paused] among its members.  The file only compares values of it and
    names [stopped]. *)
Inductive system_state : Set := stopped | running | paused | ready.

#[global] Instance system_state_eq_dec : EqDecision system_state.
Proof. solve_decision. Defined.

(** A [cpu_thread] object, reduced to what the frame reads: [pc] is what
    [get_pc()] returns, [ctrl] tells whether [rsx::thread::ctrl] is non-null
    (read for the RSX thread only) and [image] are the bytes of the object
    that [UpdateUI] snapshots with [memcpy]. *)
Module cpu_thread.
Record t : Type := mk {
  id : Z;
  state : bs_t;
  pc : Z;
  name : string;
  ctrl : bool;
  image : list Z
}.
Definition set_state (f : bs_t -> bs_t) (c : t) : t :=
  mk (id c) (f (state c)) (pc c) (name c) (ctrl c) (image c).
(** Modelled from the spec: [cpu_thread::id_type()] (Emu/CPU/CPUThread.h),
    the unit kind encoded in the high byte of the id: 1 for a PPU thread, 2
    for an SPU thread. *)
Definition id_type (c : t) : Z := Z.shiftr (id c) 24.
Definition null : t := mk 0 0%N 0 EmptyString false [].
End cpu_thread.

(** Objects are identified by their address. *)
Definition ptr : Set := N.

Record world : Type := mk_world {
  heap : gmap N cpu_thread.t;
  idm_ppu : list (Z * ptr);
  idm_spu : list (Z * ptr);
  fxo_rsx : option ptr;
  g_threads_created : Z;
  g_threads_deleted : Z;
  emu_status : system_state;
  vm_check_addr : Z -> bool;
  vm_try_access : Z -> option Z;
  spu_ref : ptr -> Z -> Z;
  notified : list ptr
}.

(** Dereference of a thread pointer.  The frame only dereferences pointers
    it owns ([m_cpu], a [shared_ptr]) or has just compared with the live
    instance ([m_rsx]); outside the heap the model reads [cpu_thread.null]. *)
Definition deref (w : world) (p : ptr) : cpu_thread.t :=
  default cpu_thread.null (heap w !! p).

(** [cpu->state.atomic_op(f)] (util/atomic.hpp): one read-modify-write of
    the flags by the functor [f]; the call returns what the functor returns.
    The run/pause button relies on it: its functor ends in [return state]
    and the result is tested under the comment "Notify only if no pause
    flags are set after this change". *)
Definition atomic_op {R : Type} (f : bs_t -> bs_t * R) (p : ptr) (w : world)
  : world * R :=
  let r := f (cpu_thread.state (deref w p)) in
  (mk_world (alter (cpu_thread.set_state (fun _ => fst r)) p (heap w))
     (idm_ppu w) (idm_spu w) (fxo_rsx w) (g_threads_created w)
     (g_threads_deleted w) (emu_status w) (vm_check_addr w)
     (vm_try_access w) (spu_ref w) (notified w),
   snd r).

(** [cpu->notify()]. *)
Definition notify (p : ptr) (w : world) : world :=
  mk_world (heap w) (idm_ppu w) (idm_spu w) (fxo_rsx w) (g_threads_created w)
    (g_threads_deleted w) (emu_status w) (vm_check_addr w) (vm_try_access w)
    (spu_ref w) (notified w ++ [p]).

(** [idm::get_unlocked<T>(id)] and [idm::check<T>(id)] (Emu/IdManager.h) on
    the registry of one thread type: the object registered under the id, if
    any.  [idm::select<T>] visits the registry in list order. *)
Fixpoint idm_find (reg : list (Z * ptr)) (i : Z) : option ptr :=
  match reg with
  | [] => None
  | (j, p) :: reg' => if Z.eqb j i then Some p else idm_find reg' i
  end.

(** ** Widgets and collaborators *)

(** [std::weak_ptr<cpu_thread>]: empty, or the object it observes.  Two
    pointers are owner-equivalent ([owner_before] false both ways) when they
    are equal here; [m_cpu], a [shared_ptr], uses the same representation. *)
Definition weak_ptr : Set := option ptr.

(** A weak pointer is expired when it is empty or its object is gone. *)
Definition expired (w : world) (k : weak_ptr) : bool :=
  match k with
  | None => true
  | Some p => bool_decide (heap w !! p = None)
  end.

(** The user data of a combo box entry ([QVariant]): none (the "No Thread"
    entry), a weak pointer to a PPU or SPU thread, or the RSX thread
    pointer.  Two values are [==] when they hold the same pointer. *)
Inductive QVariant : Set :=
| Invalid
| VWeak (k : weak_ptr)
| VRsx (r : ptr).

#[global] Instance QVariant_eq_dec : EqDecision QVariant.
Proof. solve_decision. Defined.

(** [QVariant::value<std::weak_ptr<cpu_thread>>()] and
    [QVariant::value<rsx::thread*>()]: a default value on a type mismatch. *)
Definition value_weak (v : QVariant) : weak_ptr :=
  match v with VWeak k => k | _ => None end.
Definition value_rsx (v : QVariant) : option ptr :=
  match v with VRsx r => Some r | _ => None end.

(** [QComboBox], as far as the file uses it: the entries and the current
    index (-1 when there is none). *)
Module QComboBox.
Record t : Set := mk {
  items : list (string * QVariant);
  currentIndex : Z
}.
Definition count (c : t) : Z := Z.of_nat (length (items c)).
Definition clear (c : t) : t := mk [] (-1).
(** The first entry added to an empty box becomes the current one. *)
Definition addItem (text : string) (data : QVariant) (c : t) : t :=
  mk (items c ++ [(text, data)])
     (match items c with [] => 0 | _ :: _ => currentIndex c end).
Definition setCurrentIndex (i : Z) (c : t) : t :=
  mk (items c) (if (0 <=? i) && (i <? count c) then i else -1).
Definition currentData (c : t) : QVariant :=
  if currentIndex c <? 0 then Invalid
  else match nth_error (items c) (Z.to_nat (currentIndex c)) with
       | Some (_, d) => d
       | None => Invalid
       end.
End QComboBox.

(** The disassembler bound to the selection. *)
Inductive CPUDisAsm : Set :=
| PPUDisAsm
| SPUDisAsm (spu : ptr)
| RSXDisAsm (rsx : option ptr).

Inductive button : Set :=
| m_go_to_addr | m_go_to_pc | m_btn_step | m_btn_step_over | m_btn_run.

(** Labels declared in debugger_frame.h. *)
Definition NoThreadString : string := "No Thread".
Definition RunString : string := "Run".
Definition PauseString : string := "Pause".

(** Calls on collaborators, as the frame makes them.  [ShowAddress] carries
    its second argument when the call site gives one. *)
Inductive call : Set :=
| ShowAddress (addr : Z) (arg2 : option bool)
| list_UpdateCPUData (cpu : option ptr) (disasm : option CPUDisAsm)
| bplist_UpdateCPUData (cpu : option ptr) (disasm : option CPUDisAsm)
| misc_clear
| misc_setText (cpu : ptr)
| regs_clear
| regs_setText (cpu : ptr)
| CallStackUpdateRequested (cpu : ptr)
| setText (b : button) (text : string)
| setEnabled (b : button) (enable : bool)
| choice_units_update
| AddBreakpoint (loc : Z)
| RemoveBreakpoint (loc : Z)
| try_access (addr : Z)
| ls_ref (spu : ptr) (addr : Z).

(** Modelled from the spec: the breakpoint coordinator
    (breakpoint_handler.h/.cpp are not part of the sources).  It owns the set
    of breakpoint addresses; addresses are normalised to the 4-byte
    instruction alignment before storage; adding a present address or
    removing an absent one changes nothing. *)
Module breakpoint_handler.
Definition t : Type := gset Z.
Definition normalize (loc : Z) : Z := 4 * (loc / 4).
Definition add (loc : Z) (h : t) : t := {[normalize loc]} ∪ h.
Definition remove (loc : Z) (h : t) : t := h ∖ {[normalize loc]}.
Definition contains (loc : Z) (h : t) : bool := bool_decide (normalize loc ∈ h).
End breakpoint_handler.

(** ** The frame *)

Record debugger_frame : Type := mk_frame {
  m_cpu : option ptr;
  m_rsx : option ptr;
  m_disasm : option CPUDisAsm;
  m_last_pc : Z;
  m_last_query_state : list Z;
  m_threads_created : Z;
  m_threads_deleted : Z;
  m_emu_state : system_state;
  m_last_step_over_breakpoint : Z;
  m_choice_units : QComboBox.t;
  m_breakpoint_handler : breakpoint_handler.t;
  emitted : list call
}.

Definition with_cpu (v : option ptr) (d : debugger_frame) : debugger_frame :=
  mk_frame v (m_rsx d) (m_disasm d) (m_last_pc d) (m_last_query_state d)
    (m_threads_created d) (m_threads_deleted d) (m_emu_state d)
    (m_last_step_over_breakpoint d) (m_choice_units d)
    (m_breakpoint_handler d) (emitted d).
Definition with_rsx (v : option ptr) (d : debugger_frame) : debugger_frame :=
  mk_frame (m_cpu d) v (m_disasm d) (m_last_pc d) (m_last_query_state d)
    (m_threads_created d) (m_threads_deleted d) (m_emu_state d)
    (m_last_step_over_breakpoint d) (m_choice_units d)
    (m_breakpoint_handler d) (emitted d).
Definition with_disasm (v : option CPUDisAsm) (d : debugger_frame)
  : debugger_frame :=
  mk_frame (m_cpu d) (m_rsx d) v (m_last_pc d) (m_last_query_state d)
    (m_threads_created d) (m_threads_deleted d) (m_emu_state d)
    (m_last_step_over_breakpoint d) (m_choice_units d)
    (m_breakpoint_handler d) (emitted d).
Definition with_last (pc : Z) (q : list Z) (d : debugger_frame)
  : debugger_frame :=
  mk_frame (m_cpu d) (m_rsx d) (m_disasm d) pc q
    (m_threads_created d) (m_threads_deleted d) (m_emu_state d)
    (m_last_step_over_breakpoint d) (m_choice_units d)
    (m_breakpoint_handler d) (emitted d).
Definition with_counters (c r : Z) (e : system_state) (d : debugger_frame)
  : debugger_frame :=
  mk_frame (m_cpu d) (m_rsx d) (m_disasm d) (m_last_pc d)
    (m_last_query_state d) c r e
    (m_last_step_over_breakpoint d) (m_choice_units d)
    (m_breakpoint_handler d) (emitted d).
Definition with_step_over (v : Z) (d : debugger_frame) : debugger_frame :=
  mk_frame (m_cpu d) (m_rsx d) (m_disasm d) (m_last_pc d)
    (m_last_query_state d) (m_threads_created d) (m_threads_deleted d)
    (m_emu_state d) v (m_choice_units d) (m_breakpoint_handler d) (emitted d).
Definition with_choice_units (v : QComboBox.t) (d : debugger_frame)
  : debugger_frame :=
  mk_frame (m_cpu d) (m_rsx d) (m_disasm d) (m_last_pc d)
    (m_last_query_state d) (m_threads_created d) (m_threads_deleted d)
    (m_emu_state d) (m_last_step_over_breakpoint d) v
    (m_breakpoint_handler d) (emitted d).
Definition with_breakpoints (v : breakpoint_handler.t) (d : debugger_frame)
  : debugger_frame :=
  mk_frame (m_cpu d) (m_rsx d) (m_disasm d) (m_last_pc d)
    (m_last_query_state d) (m_threads_created d) (m_threads_deleted d)
    (m_emu_state d) (m_last_step_over_breakpoint d) (m_choice_units d)
    v (emitted d).
Definition emit (c : call) (d : debugger_frame) : debugger_frame :=
  mk_frame (m_cpu d) (m_rsx d) (m_disasm d) (m_last_pc d)
    (m_last_query_state d) (m_threads_created d) (m_threads_deleted d)
    (m_emu_state d) (m_last_step_over_breakpoint d) (m_choice_units d)
    (m_breakpoint_handler d) (emitted d ++ [c]).

(** [m_breakpoint_handler->AddBreakpoint] and [->RemoveBreakpoint]. *)
Definition do_AddBreakpoint (loc : Z) (d : debugger_frame) : debugger_frame :=
  emit (AddBreakpoint loc)
    (with_breakpoints (breakpoint_handler.add loc (m_breakpoint_handler d)) d).
Definition do_RemoveBreakpoint (loc : Z) (d : debugger_frame)
  : debugger_frame :=
  emit (RemoveBreakpoint loc)
    (with_breakpoints
       (breakpoint_handler.remove loc (m_breakpoint_handler d)) d).

Definition emits (cs : list call) (d : debugger_frame) : debugger_frame :=
  fold_left (fun d' c => emit c d') cs d.

Section Debugger.

(** Bit index of each flag in [bs_t<cpu_flag>] (Emu/CPU/CPUThread.h). *)
Variable flag_bit : cpu_flag.t -> N.
(** [op_branch_targets] for SPU and PPU opcodes (Emu/Cell): the two entries
    of the returned array, [UINT32_MAX] standing for "no target". *)
Variable op_branch_targets_spu : Z -> Z -> Z * Z.
Variable op_branch_targets_ppu : Z -> Z -> Z * Z.
(** [QString::toULong(&ok, 16)]: the value when [ok] is set. *)
Variable toULong16 : string -> option Z.

Definition flag (f : cpu_flag.t) : bs_t := N.shiftl 1 (flag_bit f).

Definition s_pause_flags : bs_t :=
  bs_add (flag cpu_flag.dbg_pause) (flag cpu_flag.dbg_global_pause).

(** *** [debugger_frame::get_cpu] *)

Definition get_cpu (w : world) (d : debugger_frame)
  : option ptr * debugger_frame :=
  let usable :=
    match m_cpu d with
    | Some p =>
        let st := cpu_thread.state (deref w p) in
        negb (bs_add (bs_add st (flag cpu_flag.wait)) (flag cpu_flag.exit)
              =? st)%N
    | None => false
    end in
  if usable then (m_cpu d, d)
  else
    let d1 := if bool_decide (fxo_rsx w <> m_rsx d) then with_rsx None d
              else d in
    let d2 := match m_rsx d1 with
              | Some r => if negb (cpu_thread.ctrl (deref w r))
                          then with_rsx None d1 else d1
              | None => d1
              end in
    (m_rsx d2, d2).

(** *** [EnableButtons], [ShowPC], [WritePanels], [DoUpdate] *)

Definition EnableButtons (w : world) (enable : bool) (d : debugger_frame)
  : debugger_frame :=
  let '(cpu, d1) := get_cpu w d in
  let enable := match cpu with Some _ => enable | None => false end in
  emits [setEnabled m_go_to_addr enable; setEnabled m_go_to_pc enable;
         setEnabled m_btn_step enable; setEnabled m_btn_step_over enable;
         setEnabled m_btn_run enable] d1.

Definition ShowPC (w : world) (d : debugger_frame) : debugger_frame :=
  let '(cpu0, d1) := get_cpu w d in
  let pc := match cpu0 with
            | Some p => cpu_thread.pc (deref w p)
            | None => 0
            end in
  emit (ShowAddress pc None) d1.

Definition WritePanels (w : world) (d : debugger_frame) : debugger_frame :=
  let '(cpu, d1) := get_cpu w d in
  match cpu with
  | None => emits [misc_clear; regs_clear] d1
  | Some p =>
      emits [misc_clear; misc_setText p; regs_clear; regs_setText p;
             CallStackUpdateRequested p] d1
  end.

Definition DoUpdate (w : world) (d : debugger_frame) : debugger_frame :=
  let '(cpu0, d1) := get_cpu w d in
  let last := m_last_step_over_breakpoint d1 in
  let d2 :=
    match cpu0 with
    | Some p =>
        if negb (last =? umax) && (cpu_thread.pc (deref w p) =? last)
        then with_step_over umax (do_RemoveBreakpoint last d1)
        else d1
    | None => d1
    end in
  WritePanels w (ShowPC w d2).

(** *** [UpdateUI], [UpdateUnitList], [OnSelectUnit]

    The three call one another ([UpdateUI] refreshes the list, a refreshed
    list reselects, a selection ends in [UpdateUI]).  Each body is written
    over the function it calls; the knot is tied below on a call depth.  The
    result is [None] only when the depth runs out, which it never does from
    two levels on ([UpdateUI_total], [UpdateUI_depth]): a refresh caches the
    counters before it reselects, so the nested refresh returns at once. *)

Definition UpdateUI_with
    (UpdateUnitList : world -> debugger_frame -> option debugger_frame)
    (w : world) (d : debugger_frame) : option debugger_frame :=
  match UpdateUnitList w d with
  | None => None
  | Some d1 =>
      let '(cpu, d2) := get_cpu w d1 in
      Some
        match cpu with
        | None =>
            if negb (m_last_pc d2 =? umax)
               || negb (bool_decide (m_last_query_state d2 = []))
            then DoUpdate w (with_last umax [] d2)
            else d2
        | Some p =>
            let cia := cpu_thread.pc (deref w p) in
            let context := cpu_thread.image (deref w p) in
            if negb (m_last_pc d2 =? cia)
               || negb (bool_decide (m_last_query_state d2 = context))
            then
              let d3 := DoUpdate w (with_last cia context d2) in
              if bs_and (cpu_thread.state (deref w p)) s_pause_flags
              then emits [setText m_btn_run RunString;
                          setEnabled m_btn_step true;
                          setEnabled m_btn_step_over true] d3
              else emits [setText m_btn_run PauseString;
                          setEnabled m_btn_step false;
                          setEnabled m_btn_step_over false] d3
            else d2
        end
  end.

(** The [on_select] functor of [UpdateUnitList], applied by [idm::select] to
    every thread of one registry, in id order. *)
Definition on_select (emu_state : system_state) (old_cpu : QVariant)
    (w : world) (box : QComboBox.t) (entry : Z * ptr) : QComboBox.t :=
  let '(id, cpu) := entry in
  if bool_decide (emu_state = stopped) then box
  else
    let var_cpu :=
      VWeak (if Z.shiftr id 24 =? 1 then idm_find (idm_ppu w) id
             else idm_find (idm_spu w) id) in
    let box1 := QComboBox.addItem (cpu_thread.name (deref w cpu)) var_cpu box in
    if bool_decide (old_cpu = var_cpu)
    then QComboBox.setCurrentIndex (QComboBox.count box1 - 1) box1
    else box1.

Definition UpdateUnitList_with
    (OnSelectUnit : world -> debugger_frame -> option debugger_frame)
    (w : world) (d : debugger_frame) : option debugger_frame :=
  let threads_created := g_threads_created w in
  let threads_deleted := g_threads_deleted w in
  let emu_state := emu_status w in
  if negb (threads_created =? m_threads_created d)
     || negb (threads_deleted =? m_threads_deleted d)
     || bool_decide (emu_state <> m_emu_state d)
  then
    let d1 := with_counters threads_created threads_deleted emu_state d in
    let old_cpu := QComboBox.currentData (m_choice_units d1) in
    let box0 := QComboBox.addItem NoThreadString Invalid
                  (QComboBox.clear (m_choice_units d1)) in
    let box1 := fold_left (on_select emu_state old_cpu w) (idm_ppu w) box0 in
    let box2 := fold_left (on_select emu_state old_cpu w) (idm_spu w) box1 in
    let box3 :=
      match fxo_rsx w with
      | Some render =>
          if negb (bool_decide (emu_state = stopped))
             && cpu_thread.ctrl (deref w render)
          then
            let var_cpu := VRsx render in
            let b := QComboBox.addItem "RSX[0x55555555]" var_cpu box2 in
            if bool_decide (old_cpu = var_cpu)
            then QComboBox.setCurrentIndex (QComboBox.count b - 1) b
            else b
          else box2
      | None => box2
      end in
    match OnSelectUnit w (with_choice_units box3 d1) with
    | Some d2 => Some (emit choice_units_update d2)
    | None => None
    end
  else Some d.

Definition OnSelectUnit_with
    (UpdateUI : world -> debugger_frame -> option debugger_frame)
    (w : world) (d : debugger_frame) : option debugger_frame :=
  if QComboBox.count (m_choice_units d) <? 1 then
    Some (with_cpu None (with_disasm None
            (emits [list_UpdateCPUData None None;
                    bplist_UpdateCPUData None None] d)))
  else
    let weak := value_weak (QComboBox.currentData (m_choice_units d)) in
    let render := value_rsx (QComboBox.currentData (m_choice_units d)) in
    let '(same, d0) :=
      if negb (bool_decide (m_emu_state d = stopped)) then
        match render with
        | None => (bool_decide (weak = m_cpu d), d)
        | Some r =>
            let '(cpu, d') := get_cpu w d in
            (bool_decide (cpu = Some r), d')
        end
      else (false, d) in
    if same then Some d0
    else
      let d1 := with_rsx None (with_cpu None (with_disasm None d0)) in
      let d2 :=
        if negb (expired w weak) then
          match weak with
          | Some cpu0 =>
              let c := deref w cpu0 in
              if cpu_thread.id_type c =? 1 then
                if bool_decide
                     (idm_find (idm_ppu w) (cpu_thread.id c) = Some cpu0)
                then with_disasm (Some PPUDisAsm) (with_cpu (Some cpu0) d1)
                else d1
              else if cpu_thread.id_type c =? 2 then
                if bool_decide
                     (idm_find (idm_spu w) (cpu_thread.id c) = Some cpu0)
                then with_disasm (Some (SPUDisAsm cpu0))
                       (with_cpu (Some cpu0) d1)
                else d1
              else d1
          | None => d1
          end
        else
          let '(cpu, d') := get_cpu w (with_rsx render d1) in
          match cpu with
          | Some _ => with_disasm (Some (RSXDisAsm (m_rsx d'))) d'
          | None => d'
          end in
      let d3 := EnableButtons w true d2 in
      let '(cpu4, d4) := get_cpu w d3 in
      let d5 := emit (list_UpdateCPUData cpu4 (m_disasm d4)) d4 in
      let '(cpu6, d6) := get_cpu w d5 in
      let d7 := emit (bplist_UpdateCPUData cpu6 (m_disasm d6)) d6 in
      UpdateUI w (DoUpdate w d7).

Fixpoint UpdateUI (depth : nat) (w : world) (d : debugger_frame)
  : option debugger_frame :=
  match depth with
  | O => None
  | S n =>
      UpdateUI_with (UpdateUnitList_with (OnSelectUnit_with (UpdateUI n))) w d
  end.

Definition OnSelectUnit (depth : nat) :=
  OnSelectUnit_with (UpdateUI depth).

Definition UpdateUnitList (depth : nat) :=
  UpdateUnitList_with (OnSelectUnit depth).

(** *** The run/pause button ([m_btn_run] clicked) *)

(** The functor given to [atomic_op]: it mutates the flags and returns the
    mutated value. *)
Definition run_or_pause (state : bs_t) : bs_t * bs_t :=
  let state' := if bs_and state s_pause_flags
                then bs_sub state s_pause_flags
                else bs_add state (flag cpu_flag.dbg_pause) in
  (state', state').

Definition btn_run_clicked (depth : nat) (w : world) (d : debugger_frame)
  : option (world * debugger_frame) :=
  let '(cpu, d1) := get_cpu w d in
  let w' :=
    match cpu with
    | Some p =>
        let '(w1, old) := atomic_op run_or_pause p w in
        if negb (bs_and old s_pause_flags) then notify p w1 else w1
    | None => w
    end in
  match UpdateUI depth w' d1 with
  | Some d2 => Some (w', d2)
  | None => None
  end.

(** *** [debugger_frame::DoStep] *)

Definition DoStep (depth : nat) (stepOver : bool) (w : world)
    (d : debugger_frame) : option (world * debugger_frame) :=
  let '(cpu, d1) := get_cpu w d in
  let '(w', d') :=
    match cpu with
    | Some p =>
        let should_step_over :=
          stepOver && (cpu_thread.id_type (deref w p) =? 1) in
        if bs_and (cpu_thread.state (deref w p)) s_pause_flags then
          let d2 :=
            if should_step_over then
              let current_instruction_pc := cpu_thread.pc (deref w p) in
              let next_instruction_pc := wrap32 (current_instruction_pc + 4) in
              let da := do_AddBreakpoint next_instruction_pc d1 in
              let db :=
                if negb (m_last_step_over_breakpoint da =? umax)
                then do_RemoveBreakpoint next_instruction_pc da
                else da in
              with_step_over next_instruction_pc db
            else d1 in
          let '(w1, _) :=
            atomic_op
              (fun state =>
                 let s1 := bs_sub state s_pause_flags in
                 (if negb should_step_over
                  then bs_add s1 (flag cpu_flag.dbg_step) else s1, tt))
              p w in
          (notify p w1, d2)
        else (w, d1)
    | None => (w, d1)
    end in
  match UpdateUI depth w' d' with
  | Some d3 => Some (w', d3)
  | None => None
  end.

(** *** [EvaluateExpression] and the "Go To Address" dialog *)

Definition is_hex_digit (c : ascii) : bool :=
  let n := N_of_ascii c in
  ((65 <=? n) && (n <=? 70) || (97 <=? n) && (n <=? 102)
   || (48 <=? n) && (n <=? 57))%N.

(** [QRegExp("^[A-Fa-f0-9]+$").exactMatch]. *)
Definition hex_only (s : string) : bool :=
  negb (bool_decide (s = EmptyString))
  && forallb is_hex_digit (list_ascii_of_string s).

Definition EvaluateExpression (w : world) (d : debugger_frame)
    (expression : string) : Z * debugger_frame :=
  let fixed_expression :=
    if hex_only expression then String.append "0x" expression
    else expression in
  match toULong16 fixed_expression with
  | Some res => (res, d)
  | None =>
      let '(thread, d1) := get_cpu w d in
      match thread with
      | Some p => (cpu_thread.pc (deref w p), d1)
      | None => (0, d1)
      end
  end.

(** The dialog, by the answer of the user: the accepted text, or nothing
    when the dialog is cancelled. *)
Definition ShowGotoAddressDialog (w : world) (d : debugger_frame)
    (answer : option string) : debugger_frame :=
  let '(_, d1) := get_cpu w d in
  let '(_, d2) := get_cpu w d1 in
  match answer with
  | Some text =>
      let '(res, d3) := EvaluateExpression w d2 text in
      let address := wrap32 res in
      emit (ShowAddress address None) d3
  | None => d2
  end.

(** *** [keyPressEvent]

    The keys that reach the state modelled here: the help dialog (F1), the
    address dialog (Ctrl+G), "next instruction" (N) and the two step keys.
    The editor, register, memory viewer and SPU keys only open dialogs or
    touch SPU-private data and fall under [Key_other]. *)

Inductive Key : Set := Key_F1 | Key_G | Key_N | Key_F10 | Key_F11 | Key_other.

Record key_press : Type := mk_key_press {
  isActiveWindow : bool;
  key : Key;
  ControlModifier : bool;
  currentRow : Z;
  list_pc : Z;
  goto_answer : option string
}.

(** [std::basic_string_view<u32>(res.data(), 2).find_last_not_of(UINT32_MAX)]
    and the entry it selects. *)
Definition find_last_not_of_max (res : Z * Z) : option Z :=
  if negb (snd res =? umax) then Some (snd res)
  else if negb (fst res =? umax) then Some (fst res)
  else None.

(** The locals [address_limits] and [pc] of [keyPressEvent]: the address
    of the marked row, or the thread's own when no row is current. *)
Definition address_limits (c : cpu_thread.t) : Z :=
  if cpu_thread.id_type c =? 2 then 262140 else wrap32 (Z.lnot 3).

Definition marked_pc (ev : key_press) (c : cpu_thread.t) : Z :=
  Z.land (if 0 <=? currentRow ev
          then wrap32 (list_pc ev + currentRow ev * 4)
          else cpu_thread.pc c) (address_limits c).

Definition keyPressEvent (depth : nat) (ev : key_press) (w : world)
    (d : debugger_frame) : option (world * debugger_frame) :=
  if negb (isActiveWindow ev) then Some (w, d)
  else
    let '(cpu, d1) := get_cpu w d in
    let i := currentRow ev in
    match key ev with
    | Key_F1 => Some (w, d1)
    | k =>
        match cpu with
        | None => Some (w, d1)
        | Some p =>
            let pc := marked_pc ev (deref w p) in
            if ControlModifier ev then
              match k with
              | Key_G => Some (w, ShowGotoAddressDialog w d1 (goto_answer ev))
              | _ => Some (w, d1)
              end
            else
              match k with
              | Key_N =>
                  let '(res, d2) :=
                    if cpu_thread.id_type (deref w p) =? 2 then
                      (op_branch_targets_spu pc (spu_ref w p pc),
                       emit (ls_ref p pc) d1)
                    else if cpu_thread.id_type (deref w p) =? 1 then
                      if vm_check_addr w pc then
                        match vm_try_access w pc with
                        | Some op =>
                            (op_branch_targets_ppu pc op,
                             emit (try_access pc) d1)
                        | None => ((umax, umax), emit (try_access pc) d1)
                        end
                      else ((umax, umax), d1)
                    else ((umax, umax), d1) in
                  match find_last_not_of_max res with
                  | Some target =>
                      Some (w, emit (ShowAddress
                                       (wrap32 (target - Z.max i 0 * 4))
                                       (Some true)) d2)
                  | None => Some (w, d2)
                  end
              | Key_F10 => DoStep depth true w d1
              | Key_F11 => DoStep depth false w d1
              | _ => Some (w, d1)
              end
        end
    end.

End Debugger.

Arguments UpdateUI flag_bit depth w d : simpl never.
Arguments atomic_op {R} f p w : simpl never.
Arguments notify p w : simpl never.

(** ** Concrete instances

    A numbering of the five flags, a parser for the hexadecimal texts and a
    branch predictor without targets, used to run the model on concrete
    states. *)

Definition sample_flag_bit (f : cpu_flag.t) : N :=
  match f with
  | cpu_flag.exit => 1
  | cpu_flag.wait => 2
  | cpu_flag.dbg_global_pause => 9
  | cpu_flag.dbg_pause => 10
  | cpu_flag.dbg_step => 11
  end%N.

Definition hex_value (c : ascii) : option Z :=
  let n := Z.of_N (N_of_ascii c) in
  if (48 <=? n) && (n <=? 57) then Some (n - 48)
  else if (65 <=? n) && (n <=? 70) then Some (n - 55)
  else if (97 <=? n) && (n <=? 102) then Some (n - 87)
  else None.

Fixpoint hex_digits (acc : Z) (s : string) : option Z :=
  match s with
  | EmptyString => Some acc
  | String c s' =>
      match hex_value c with
      | Some v => hex_digits (16 * acc + v) s'
      | None => None
      end
  end.

(** Hexadecimal digits after an optional [0x]; at least one digit. *)
Definition sample_toULong16 (s : string) : option Z :=
  match s with
  | String "0" (String "x" (String c s')) => hex_digits 0 (String c s')
  | String c s' => hex_digits 0 (String c s')
  | EmptyString => None
  end.

Definition no_targets (pc op : Z) : Z * Z := (umax, umax).

Definition sample_world (threads : list (ptr * cpu_thread.t))
    (ppu spu : list (Z * ptr)) (status : system_state) : world :=
  mk_world (list_to_map threads) ppu spu None 1 0 status
    (fun _ => false) (fun _ => None) (fun _ _ => 0) [].

Definition sample_frame (cpu : option ptr) (disasm : option CPUDisAsm)
    (last_pc pending : Z) (status : system_state) (box : QComboBox.t)
    (breakpoints : list Z) : debugger_frame :=
  mk_frame cpu None disasm last_pc [] 1 0 status pending box
    (list_to_set breakpoints) [].

(** One PPU thread, paused for the debugger ([dbg_pause], bit 10) at 0x1000,
    and the same thread running. *)
Definition ppu_paused : cpu_thread.t :=
  cpu_thread.mk 16777216 1024%N 4096 "PPU[0x1000000] main" false [0; 16; 0].
Definition ppu_running : cpu_thread.t :=
  cpu_thread.mk 16777216 0%N 4096 "PPU[0x1000000] main" false [0; 16; 0].
(** The same thread once it has acknowledged its exit ([exit] and [wait]). *)
Definition ppu_gone : cpu_thread.t :=
  cpu_thread.mk 16777216 6%N 4096 "PPU[0x1000000] main" false [0; 16; 0].
(** One SPU thread, running, its program counter at 0x1004. *)
Definition spu_running : cpu_thread.t :=
  cpu_thread.mk 33554432 0%N 4100 "SPU[0x2000000] worker" false [4; 16; 0].

Definition ppu_box : QComboBox.t :=
  QComboBox.mk [(NoThreadString, Invalid);
                ("PPU[0x1000000] main"%string, VWeak (Some 1%N))] 1.
Definition spu_box : QComboBox.t :=
  QComboBox.mk [(NoThreadString, Invalid);
                ("SPU[0x2000000] worker"%string, VWeak (Some 2%N))] 1.

(** The PPU thread paused at 0x1000 and selected. *)
Definition paused_world : world :=
  sample_world [(1%N, ppu_paused)] [(16777216, 1%N)] [] running.
Definition running_world : world :=
  sample_world [(1%N, ppu_running)] [(16777216, 1%N)] [] running.
Definition gone_world : world :=
  sample_world [(1%N, ppu_gone)] [] [] running.

(** No step-over pending. *)
Definition fresh_frame : debugger_frame :=
  sample_frame (Some 1%N) (Some PPUDisAsm) 4096 umax running ppu_box [].
(** A step-over breakpoint still pending at 0x2004, never reached. *)
Definition stale_frame : debugger_frame :=
  sample_frame (Some 1%N) (Some PPUDisAsm) 4096 8196 running ppu_box [8196].
(** A step-over breakpoint pending at 0x1000, where the thread now is. *)
Definition reached_frame : debugger_frame :=
  sample_frame (Some 1%N) (Some PPUDisAsm) 4092 4096 running ppu_box [4096].

(** The SPU thread selected and running; a step-over breakpoint set earlier
    on a PPU thread is still pending at 0x1004, and the last poll saw the
    SPU thread at 0x1000. *)
Definition spu_world : world :=
  sample_world [(2%N, spu_running)] [] [(33554432, 2%N)] running.
Definition spu_frame : debugger_frame :=
  sample_frame (Some 2%N) (Some (SPUDisAsm 2%N)) 4096 4100 running spu_box
    [4100].

(** The emulation has just been paused as a whole: same threads, new
    lifecycle state. *)
Definition emu_paused_world : world :=
  sample_world [(1%N, ppu_running)] [(16777216, 1%N)] [] paused.

(** No thread selected. *)
Definition empty_frame : debugger_frame :=
  sample_frame None None umax umax running
    (QComboBox.mk [(NoThreadString, Invalid)] 0) [].

(** The N key, no row marked. *)
Definition press_N : key_press :=
  mk_key_press true Key_N false (-1) 0 None.

(** The emulator stopped: no thread left. *)
Definition stopped_world : world := sample_world [] [] [] stopped.



(** A predictor that knows the fall-through address only. *)
Definition fall_through (pc op : Z) : Z * Z := (pc + 4, umax).

(** The F10 key. *)
Definition press_F10 : key_press :=
  mk_key_press true Key_F10 false (-1) 0 None.

(** ** Vocabulary of the properties *)

(** A flag is set in a flag word. *)
Definition is_set (flag_bit : cpu_flag.t -> N) (s : bs_t) (f : cpu_flag.t)
  : bool := N.testbit s (flag_bit f).

(** Paused for the debugger: [dbg_pause] or [dbg_global_pause] is set. *)
Definition dbg_paused (flag_bit : cpu_flag.t -> N) (s : bs_t) : bool :=
  is_set flag_bit s cpu_flag.dbg_pause
  || is_set flag_bit s cpu_flag.dbg_global_pause.

(** The cached counters and lifecycle state differ from the live ones. *)
Definition tallies_differ (w : world) (d : debugger_frame) : Prop :=
  g_threads_created w <> m_threads_created d
  \/ g_threads_deleted w <> m_threads_deleted d
  \/ emu_status w <> m_emu_state d.

(** The entries a rebuilt thread list shows. *)
Definition thread_entry (w : world) (e : Z * ptr) : string * QVariant :=
  (cpu_thread.name (deref w (snd e)),
   VWeak (if Z.shiftr (fst e) 24 =? 1 then idm_find (idm_ppu w) (fst e)
          else idm_find (idm_spu w) (fst e))).

Definition visible_list (w : world) : list (string * QVariant) :=
  (NoThreadString, Invalid)
  :: (if bool_decide (emu_status w = stopped) then []
      else map (thread_entry w) (idm_ppu w ++ idm_spu w))
  ++ match fxo_rsx w with
     | Some render =>
         if negb (bool_decide (emu_status w = stopped))
            && cpu_thread.ctrl (deref w render)
         then [("RSX[0x55555555]"%string, VRsx render)] else []
     | None => []
     end.

(** The frame holds a CPU thread or the RSX pointer, never both. *)
Definition exclusive (d : debugger_frame) : Prop :=
  m_cpu d = None \/ m_rsx d = None.

(** What a poll may do to the breakpoints: nothing, or retire the pending
    step-over breakpoint. *)
Definition retired (d d' : debugger_frame) : Prop :=
  (m_breakpoint_handler d' = m_breakpoint_handler d
   /\ m_last_step_over_breakpoint d' = m_last_step_over_breakpoint d)
  \/ (m_last_step_over_breakpoint d <> umax
      /\ m_breakpoint_handler d'
         = breakpoint_handler.remove (m_last_step_over_breakpoint d)
             (m_breakpoint_handler d)
      /\ m_last_step_over_breakpoint d' = umax).

(** The cached counters and lifecycle state are the live ones. *)
Definition settled (w : world) (d : debugger_frame) : Prop :=
  g_threads_created w = m_threads_created d
  /\ g_threads_deleted w = m_threads_deleted d
  /\ emu_status w = m_emu_state d.

(** A step that, on a settled frame, keeps it settled and keeps the list. *)
Definition keeps_list (w : world) (d d' : debugger_frame) : Prop :=
  settled w d -> settled w d' /\ m_choice_units d' = m_choice_units d.

Definition keeps_exclusive (d d' : debugger_frame) : Prop :=
  exclusive d -> exclusive d'.

(** A step of the frame that only resolves the selection and talks to the
    widgets: the RSX pointer is kept or dropped, calls are appended, nothing
    else moves. *)
Record ui_step (d d' : debugger_frame) : Prop := mk_ui_step {
  ui_cpu : m_cpu d' = m_cpu d;
  ui_rsx : m_rsx d' = m_rsx d \/ m_rsx d' = None;
  ui_disasm : m_disasm d' = m_disasm d;
  ui_last_pc : m_last_pc d' = m_last_pc d;
  ui_query : m_last_query_state d' = m_last_query_state d;
  ui_created : m_threads_created d' = m_threads_created d;
  ui_deleted : m_threads_deleted d' = m_threads_deleted d;
  ui_state : m_emu_state d' = m_emu_state d;
  ui_pending : m_last_step_over_breakpoint d' = m_last_step_over_breakpoint d;
  ui_box : m_choice_units d' = m_choice_units d;
  ui_breakpoints : m_breakpoint_handler d' = m_breakpoint_handler d;
  ui_emitted : exists l, emitted d' = emitted d ++ l
}.

(** The frame is as [get_cpu] leaves it. *)
Definition resolved (flag_bit : cpu_flag.t -> N) (w : world)
    (d : debugger_frame) : Prop :=
  snd (get_cpu flag_bit w d) = d.

(** What the poll reads to decide whether anything changed. *)
Definition poll_unchanged (flag_bit : cpu_flag.t -> N) (w : world)
    (d : debugger_frame) : Prop :=
  match fst (get_cpu flag_bit w d) with
  | None => m_last_pc d = umax /\ m_last_query_state d = []
  | Some p =>
      m_last_pc d = cpu_thread.pc (deref w p)
      /\ m_last_query_state d = cpu_thread.image (deref w p)
  end.

(** Steps that leave the selection, the caches and the list alone. *)
Record kept (d d' : debugger_frame) : Prop := mk_kept {
  kept_cpu : m_cpu d' = m_cpu d;
  kept_rsx : m_rsx d' = m_rsx d;
  kept_disasm : m_disasm d' = m_disasm d;
  kept_last_pc : m_last_pc d' = m_last_pc d;
  kept_query : m_last_query_state d' = m_last_query_state d;
  kept_created : m_threads_created d' = m_threads_created d;
  kept_deleted : m_threads_deleted d' = m_threads_deleted d;
  kept_state : m_emu_state d' = m_emu_state d;
  kept_box : m_choice_units d' = m_choice_units d
}.

(** The selection and the list, as a poll on settled counters keeps them. *)
Record same_target (d d' : debugger_frame) : Prop := mk_same_target {
  st_cpu : m_cpu d' = m_cpu d;
  st_disasm : m_disasm d' = m_disasm d;
  st_rsx : m_rsx d' = m_rsx d \/ m_rsx d' = None;
  st_box : m_choice_units d' = m_choice_units d
}.

(** The box [UpdateUnitList] builds when it rebuilds the list, from the box
    it finds. *)
Definition rebuilt_box (w : world) (box : QComboBox.t) : QComboBox.t :=
  let emu_state := emu_status w in
  let old_cpu := QComboBox.currentData box in
  let box0 := QComboBox.addItem NoThreadString Invalid (QComboBox.clear box) in
  let box1 := fold_left (on_select emu_state old_cpu w) (idm_ppu w) box0 in
  let box2 := fold_left (on_select emu_state old_cpu w) (idm_spu w) box1 in
  match fxo_rsx w with
  | Some render =>
      if negb (bool_decide (emu_state = stopped))
         && cpu_thread.ctrl (deref w render)
      then
        let var_cpu := VRsx render in
        let b := QComboBox.addItem "RSX[0x55555555]" var_cpu box2 in
        if bool_decide (old_cpu = var_cpu)
        then QComboBox.setCurrentIndex (QComboBox.count b - 1) b
        else b
      else box2
  | None => box2
  end.

(** The current entry of a box is the entry [old], or [old] is not in the
    box and the current entry is the first one. *)
Definition selection_kept (old : QVariant) (box : QComboBox.t) : Prop :=
  0 <= QComboBox.currentIndex box < QComboBox.count box
  /\ (In old (map snd (QComboBox.items box)) -> QComboBox.currentData box = old)
  /\ (~ In old (map snd (QComboBox.items box)) ->
      QComboBox.currentIndex box = 0).

(** ** Flag arithmetic *)

Section Flags.

Variable flag_bit : cpu_flag.t -> N.

Local Abbreviation flag := (flag flag_bit).
Local Abbreviation s_pause_flags := (s_pause_flags flag_bit).
Local Abbreviation is_set := (is_set flag_bit).
Local Abbreviation dbg_paused := (dbg_paused flag_bit).

Lemma flag_testbit f n : N.testbit (flag f) n = (flag_bit f =? n)%N.
Proof. unfold flag. rewrite N.shiftl_1_l. apply N.pow2_bits_eqb. Qed.

Lemma bs_and_flag s f : bs_and s (flag f) = is_set s f.
Proof.
  unfold bs_and, is_set.
  destruct (N.testbit s (flag_bit f)) eqn:Hb.
  - apply negb_true_iff, N.eqb_neq. intros H0.
    assert (Hk : N.testbit (N.land s (flag f)) (flag_bit f) = true).
    { rewrite N.land_spec, Hb, flag_testbit, N.eqb_refl. reflexivity. }
    rewrite H0, N.bits_0 in Hk. discriminate.
  - apply negb_false_iff, N.eqb_eq, N.bits_inj_0. intros n.
    rewrite N.land_spec, flag_testbit.
    destruct (N.eqb_spec (flag_bit f) n) as [<-|]; [|apply andb_false_r].
    rewrite Hb. reflexivity.
Qed.

Lemma bs_and_add s a b : bs_and s (bs_add a b) = bs_and s a || bs_and s b.
Proof.
  unfold bs_and, bs_add. rewrite N.land_lor_distr_r.
  destruct (N.eqb_spec (N.lor (N.land s a) (N.land s b)) 0) as [H0|H0].
  - apply N.lor_eq_0_iff in H0 as [-> ->]. reflexivity.
  - destruct (N.eqb_spec (N.land s a) 0) as [Ha|]; [|reflexivity].
    destruct (N.eqb_spec (N.land s b) 0) as [Hb|]; [|reflexivity].
    rewrite Ha, Hb in H0. contradiction.
Qed.

Lemma bs_and_pause s : bs_and s s_pause_flags = dbg_paused s.
Proof.
  unfold s_pause_flags, dbg_paused.
  rewrite bs_and_add, !bs_and_flag. reflexivity.
Qed.

Lemma is_set_add s r f : is_set (bs_add s r) f = is_set s f || is_set r f.
Proof. apply N.lor_spec. Qed.

Lemma is_set_sub s r f : is_set (bs_sub s r) f = is_set s f && negb (is_set r f).
Proof. apply N.ldiff_spec. Qed.

Lemma is_set_flag f g : is_set (flag f) g = bool_decide (flag_bit f = flag_bit g).
Proof.
  unfold is_set. rewrite flag_testbit.
  destruct (N.eqb_spec (flag_bit f) (flag_bit g)) as [H|H];
    symmetry; [apply bool_decide_eq_true_2 | apply bool_decide_eq_false_2];
    assumption.
Qed.

Lemma is_set_pause_flags f :
  is_set s_pause_flags f
  = bool_decide (flag_bit cpu_flag.dbg_pause = flag_bit f)
    || bool_decide (flag_bit cpu_flag.dbg_global_pause = flag_bit f).
Proof.
  unfold s_pause_flags. rewrite is_set_add, !is_set_flag.
  reflexivity.
Qed.

(** The test of [get_cpu]: adding [wait] and [exit] leaves the word as it is
    exactly when both are already set. *)
Lemma wait_exit_absorbed s :
  (bs_add (bs_add s (flag cpu_flag.wait)) (flag cpu_flag.exit) =? s)%N
  = is_set s cpu_flag.wait && is_set s cpu_flag.exit.
Proof.
  destruct (N.eqb_spec
              (bs_add (bs_add s (flag cpu_flag.wait)) (flag cpu_flag.exit)) s)
    as [He|Hne]; symmetry.
  - apply andb_true_iff; split.
    + rewrite <- He at 1. rewrite !is_set_add, is_set_flag.
      rewrite (bool_decide_eq_true_2 _ eq_refl). apply orb_true_iff.
      left. apply orb_true_r.
    + rewrite <- He at 1. rewrite !is_set_add, (is_set_flag cpu_flag.exit).
      rewrite (bool_decide_eq_true_2 _ eq_refl). apply orb_true_r.
  - apply not_true_is_false. intros [Hw Hx]%andb_true_iff. apply Hne.
    apply N.bits_inj. intros n. unfold bs_add.
    rewrite !N.lor_spec, !flag_testbit.
    destruct (N.eqb_spec (flag_bit cpu_flag.wait) n) as [E1|E1];
      destruct (N.eqb_spec (flag_bit cpu_flag.exit) n) as [E2|E2];
      rewrite ?orb_true_r, ?orb_false_r; simpl; try reflexivity;
      symmetry; first [rewrite <- E1; exact Hw | rewrite <- E2; exact Hx].
Qed.

End Flags.

(** ** Footprints

    [get_cpu] and the widget updates are [ui_step]s. *)

Lemma ui_step_refl d : ui_step d d.
Proof. split; auto. exists []. symmetry. apply app_nil_r. Qed.

Lemma ui_step_trans d1 d2 d3 : ui_step d1 d2 -> ui_step d2 d3 -> ui_step d1 d3.
Proof.
  intros [] []. split; try congruence.
  - destruct ui_rsx1 as [->|]; auto.
  - destruct ui_emitted0 as [l0 E0], ui_emitted1 as [l1 E1].
    exists (l0 ++ l1). rewrite E1, E0. symmetry. apply app_assoc.
Qed.

Lemma emit_ui c d : ui_step d (emit c d).
Proof. split; simpl; auto. eexists; reflexivity. Qed.

Lemma emits_ui l d : ui_step d (emits l d).
Proof.
  revert d. induction l as [|c l IH]; intros d; simpl.
  - apply ui_step_refl.
  - eapply ui_step_trans; [apply emit_ui | apply IH].
Qed.

Lemma with_rsx_None_ui d : ui_step d (with_rsx None d).
Proof. split; simpl; auto. exists []. symmetry. apply app_nil_r. Qed.

Create HintDb ui.

#[local] Hint Resolve ui_step_refl emit_ui emits_ui with_rsx_None_ui : ui.

Section Footprint.

Variable flag_bit : cpu_flag.t -> N.
Variable w : world.

Lemma get_cpu_ui d : ui_step d (snd (get_cpu flag_bit w d)).
Proof.
  unfold get_cpu. repeat case_match; simpl; subst; auto with ui;
    eapply ui_step_trans; auto with ui.
Qed.

(** The frame left by [get_cpu], named. *)
Lemma get_cpu_split d :
  exists cpu d1, get_cpu flag_bit w d = (cpu, d1) /\ ui_step d d1.
Proof.
  destruct (get_cpu flag_bit w d) as [cpu d1] eqn:E. exists cpu, d1.
  split; [reflexivity|]. pose proof (get_cpu_ui d) as H.
  rewrite E in H. exact H.
Qed.

Lemma EnableButtons_ui e d : ui_step d (EnableButtons flag_bit w e d).
Proof.
  unfold EnableButtons.
  destruct (get_cpu_split d) as (cpu & d1 & -> & H).
  eapply ui_step_trans; [exact H | apply emits_ui].
Qed.

Lemma ShowPC_ui d : ui_step d (ShowPC flag_bit w d).
Proof.
  unfold ShowPC.
  destruct (get_cpu_split d) as (cpu & d1 & -> & H).
  eapply ui_step_trans; [exact H | apply emit_ui].
Qed.

Lemma WritePanels_ui d : ui_step d (WritePanels flag_bit w d).
Proof.
  unfold WritePanels.
  destruct (get_cpu_split d) as (cpu & d1 & -> & H).
  destruct cpu; (eapply ui_step_trans; [exact H | apply emits_ui]).
Qed.

End Footprint.

(** ** Closure of the poll

    A relation on frames that contains the elementary steps of the poll
    contains [DoUpdate], [OnSelectUnit], [UpdateUnitList] and [UpdateUI]. *)

Lemma tallies_guard w d :
  negb (g_threads_created w =? m_threads_created d)
  || negb (g_threads_deleted w =? m_threads_deleted d)
  || bool_decide (emu_status w <> m_emu_state d) = true
  <-> tallies_differ w d.
Proof.
  unfold tallies_differ.
  rewrite !orb_true_iff, !negb_true_iff, !Z.eqb_neq, bool_decide_eq_true.
  tauto.
Qed.

Lemma UpdateUI_S flag_bit n w d :
  UpdateUI flag_bit (S n) w d
  = UpdateUI_with flag_bit
      (UpdateUnitList_with (OnSelectUnit_with flag_bit (UpdateUI flag_bit n)))
      w d.
Proof. reflexivity. Qed.

Section Closure.

Variable flag_bit : cpu_flag.t -> N.
Variable w : world.
Variable Rel : debugger_frame -> debugger_frame -> Prop.

Hypothesis Rel_trans : forall d1 d2 d3, Rel d1 d2 -> Rel d2 d3 -> Rel d1 d3.
Hypothesis Rel_ui : forall d d', ui_step d d' -> Rel d d'.
Hypothesis Rel_last : forall pc q d, Rel d (with_last pc q d).
Hypothesis Rel_retire : forall d,
  m_last_step_over_breakpoint d <> umax ->
  Rel d (with_step_over umax
           (do_RemoveBreakpoint (m_last_step_over_breakpoint d) d)).
Hypothesis Rel_disasm : forall x d, Rel d (with_disasm x d).
Hypothesis Rel_drop_cpu : forall d, Rel d (with_cpu None d).
Hypothesis Rel_pick_cpu : forall p d,
  m_rsx d = None -> Rel d (with_cpu (Some p) d).
Hypothesis Rel_pick_rsx : forall r d,
  m_cpu d = None -> Rel d (with_rsx r d).
Hypothesis Rel_refresh : forall box d,
  tallies_differ w d ->
  Rel d (with_choice_units box
           (with_counters (g_threads_created w) (g_threads_deleted w)
              (emu_status w) d)).

Lemma Rel_refl d : Rel d d.
Proof. apply Rel_ui, ui_step_refl. Qed.

Lemma DoUpdate_Rel d : Rel d (DoUpdate flag_bit w d).
Proof.
  unfold DoUpdate.
  destruct (get_cpu_split flag_bit w d) as (cpu & d1 & -> & H).
  eapply Rel_trans; [apply Rel_ui, H|].
  eapply Rel_trans; [|apply Rel_ui, WritePanels_ui].
  eapply Rel_trans; [|apply Rel_ui, ShowPC_ui].
  destruct cpu as [p|]; [|apply Rel_refl].
  destruct (negb (m_last_step_over_breakpoint d1 =? umax)) eqn:E; simpl;
    [|apply Rel_refl].
  destruct (cpu_thread.pc (deref w p) =? m_last_step_over_breakpoint d1);
    [|apply Rel_refl].
  apply Rel_retire. apply negb_true_iff, Z.eqb_neq in E. exact E.
Qed.

Lemma UpdateUI_with_Rel U :
  (forall d d', U w d = Some d' -> Rel d d') ->
  forall d d', UpdateUI_with flag_bit U w d = Some d' -> Rel d d'.
Proof.
  intros HU d d'. unfold UpdateUI_with.
  destruct (U w d) as [d1|] eqn:EU; [|discriminate].
  destruct (get_cpu_split flag_bit w d1) as (cpu & d2 & -> & H).
  intros [= <-].
  eapply Rel_trans; [apply (HU _ _ EU)|].
  eapply Rel_trans; [apply Rel_ui, H|].
  destruct cpu as [p|].
  - destruct (_ || _); [|apply Rel_refl].
    destruct (bs_and _ _);
      (eapply Rel_trans; [|apply Rel_ui, (emits_ui [_; _; _])]);
      (eapply Rel_trans; [|apply DoUpdate_Rel]); apply Rel_last.
  - destruct (_ || _); [|apply Rel_refl].
    eapply Rel_trans; [|apply DoUpdate_Rel]. apply Rel_last.
Qed.

(** [OnSelectUnit] either returns at once or hands a frame to [UpdateUI]. *)
Lemma OnSelectUnit_with_cases d :
  (exists d0, Rel d d0
              /\ forall K, OnSelectUnit_with flag_bit K w d = Some d0)
  \/ (exists d8, Rel d d8
                 /\ forall K, OnSelectUnit_with flag_bit K w d = K w d8).
Proof.
  unfold OnSelectUnit_with.
  destruct (QComboBox.count (m_choice_units d) <? 1).
  { left. eexists. split; [|reflexivity].
    eapply Rel_trans; [|apply Rel_drop_cpu].
    eapply Rel_trans; [|apply Rel_disasm]. apply Rel_ui, emits_ui. }
  set (weak := value_weak _). set (render := value_rsx _).
  assert (Hsame : exists same d0,
    (if negb (bool_decide (m_emu_state d = stopped)) then
       match render with
       | None => (bool_decide (weak = m_cpu d), d)
       | Some r =>
           let '(cpu, d') := get_cpu flag_bit w d in
           (bool_decide (cpu = Some r), d')
       end
     else (false, d)) = (same, d0) /\ Rel d d0).
  { destruct (negb _); [|eauto using Rel_refl].
    destruct render as [r|]; [|eauto using Rel_refl].
    destruct (get_cpu_split flag_bit w d) as (cpu & d' & -> & H).
    eauto. }
  destruct Hsame as (same & d0 & -> & H0).
  destruct same; [left; eauto|]. right.
  set (d1 := with_rsx None (with_cpu None (with_disasm None d0))).
  assert (H1 : Rel d0 d1).
  { unfold d1. eapply Rel_trans; [apply Rel_disasm|].
    eapply Rel_trans; [apply Rel_drop_cpu|]. apply Rel_ui, with_rsx_None_ui. }
  match goal with
  | |- context [EnableButtons flag_bit w true ?x] => set (d2 := x)
  end.
  assert (H2 : Rel d1 d2).
  { unfold d2. destruct (negb (expired w weak)).
    - destruct weak as [cpu0|]; [|apply Rel_refl].
      repeat case_match; try apply Rel_refl;
        (eapply Rel_trans; [|apply Rel_disasm]); apply Rel_pick_cpu;
        reflexivity.
    - destruct (get_cpu_split flag_bit w (with_rsx render d1))
        as (c & d' & -> & H').
      eapply Rel_trans; [apply Rel_pick_rsx; reflexivity|].
      eapply Rel_trans; [apply Rel_ui, H'|].
      destruct c; [apply Rel_disasm | apply Rel_refl]. }
  clearbody d2.
  set (d3 := EnableButtons flag_bit w true d2).
  assert (H3 : Rel d2 d3) by apply Rel_ui, EnableButtons_ui.
  clearbody d3.
  destruct (get_cpu_split flag_bit w d3) as (c4 & d4 & -> & H4).
  match goal with
  | |- context [get_cpu flag_bit w ?x] =>
      destruct (get_cpu_split flag_bit w x) as (c6 & d6 & -> & H6)
  end.
  eexists. split; [|intros K; reflexivity].
  eapply Rel_trans; [exact H0|]. eapply Rel_trans; [exact H1|].
  eapply Rel_trans; [exact H2|]. eapply Rel_trans; [exact H3|].
  eapply Rel_trans; [apply Rel_ui, H4|].
  eapply Rel_trans; [apply Rel_ui, emit_ui|].
  eapply Rel_trans; [apply Rel_ui, H6|].
  eapply Rel_trans; [apply Rel_ui, emit_ui|].
  apply DoUpdate_Rel.
Qed.

Lemma OnSelectUnit_with_Rel K :
  (forall d d', K w d = Some d' -> Rel d d') ->
  forall d d', OnSelectUnit_with flag_bit K w d = Some d' -> Rel d d'.
Proof.
  intros HK d d' E.
  destruct (OnSelectUnit_with_cases d) as [(d0 & H0 & E0)|(d8 & H8 & E8)].
  - rewrite E0 in E. injection E as <-. exact H0.
  - rewrite E8 in E. eapply Rel_trans; [exact H8 | eapply HK, E].
Qed.

Lemma UpdateUnitList_with_Rel O :
  (forall d d', O w d = Some d' -> Rel d d') ->
  forall d d', UpdateUnitList_with O w d = Some d' -> Rel d d'.
Proof.
  intros HO d d'. unfold UpdateUnitList_with.
  destruct (_ || _) eqn:G.
  - apply tallies_guard in G.
    match goal with
    | |- context [O w ?x] => destruct (O w x) as [d2|] eqn:EO
    end; [|discriminate].
    intros [= <-].
    eapply Rel_trans; [|apply Rel_ui, emit_ui].
    eapply Rel_trans; [|eapply HO, EO].
    apply Rel_refresh, G.
  - intros [= <-]. apply Rel_refl.
Qed.

Lemma UpdateUI_Rel n : forall d d',
  UpdateUI flag_bit n w d = Some d' -> Rel d d'.
Proof.
  induction n as [|n IH]; [discriminate|]. intros d d'. rewrite UpdateUI_S.
  revert d d'.
  apply UpdateUI_with_Rel, UpdateUnitList_with_Rel, OnSelectUnit_with_Rel, IH.
Qed.

Lemma OnSelectUnit_Rel n : forall d d',
  OnSelectUnit flag_bit n w d = Some d' -> Rel d d'.
Proof. apply OnSelectUnit_with_Rel, UpdateUI_Rel. Qed.

Lemma UpdateUnitList_Rel n : forall d d',
  UpdateUnitList flag_bit n w d = Some d' -> Rel d d'.
Proof. apply UpdateUnitList_with_Rel, OnSelectUnit_Rel. Qed.

End Closure.

(** ** Three invariants of the poll *)

Section Invariants.

Variable flag_bit : cpu_flag.t -> N.
Variable w : world.

(** *** Breakpoints: a poll at most retires the pending step-over entry *)

Lemma retired_trans d1 d2 d3 : retired d1 d2 -> retired d2 d3 -> retired d1 d3.
Proof.
  unfold retired.
  intros [[E1 E2]|(N1 & E1 & E2)] [[F1 F2]|(N2 & F1 & F2)].
  - left. split; congruence.
  - right. rewrite <- E1, <- E2. auto.
  - right. repeat split; congruence.
  - congruence.
Qed.

Lemma retired_ui d d' : ui_step d d' -> retired d d'.
Proof. intros []. left. auto. Qed.

Lemma UpdateUI_retired n d d' :
  UpdateUI flag_bit n w d = Some d' -> retired d d'.
Proof.
  apply (UpdateUI_Rel flag_bit w retired retired_trans retired_ui);
    intros; try (left; split; reflexivity).
  right. auto.
Qed.

(** *** Counters: once cached, the list is not rebuilt again *)

Lemma settled_not_differ d : settled w d -> ~ tallies_differ w d.
Proof. unfold settled, tallies_differ. tauto. Qed.

Lemma keeps_list_closed :
  (forall d1 d2 d3, keeps_list w d1 d2 -> keeps_list w d2 d3 -> keeps_list w d1 d3)
  /\ (forall d d', ui_step d d' -> keeps_list w d d').
Proof.
  unfold keeps_list, settled. split.
  - intros d1 d2 d3 H12 H23 H1. destruct (H12 H1) as [H2 E2].
    destruct (H23 H2) as [H3 E3]. split; congruence.
  - intros d d' [] H. rewrite ui_created0, ui_deleted0, ui_state0. auto.
Qed.

Lemma UpdateUI_keeps_list n d d' :
  UpdateUI flag_bit n w d = Some d' -> keeps_list w d d'.
Proof.
  destruct keeps_list_closed as [Ht Hu].
  apply (UpdateUI_Rel flag_bit w (keeps_list w) Ht Hu);
    try (intros; intros ?; split; [assumption | reflexivity]).
  intros box d0 Hd Hs. destruct (settled_not_differ _ Hs Hd).
Qed.

Lemma OnSelectUnit_keeps_list n d d' :
  OnSelectUnit flag_bit n w d = Some d' -> keeps_list w d d'.
Proof.
  destruct keeps_list_closed as [Ht Hu].
  apply (OnSelectUnit_Rel flag_bit w (keeps_list w) Ht Hu);
    try (intros; intros ?; split; [assumption | reflexivity]).
  intros box d0 Hd Hs. destruct (settled_not_differ _ Hs Hd).
Qed.

(** *** Selection: a CPU thread or the RSX pointer, never both *)

Lemma UpdateUI_exclusive n d d' :
  UpdateUI flag_bit n w d = Some d' -> exclusive d -> exclusive d'.
Proof.
  apply (UpdateUI_Rel flag_bit w keeps_exclusive);
    unfold keeps_exclusive, exclusive; simpl; auto.
  intros d0 d0' [] [H|H]; [left|right]; try congruence.
  destruct ui_rsx0; congruence.
Qed.

Lemma OnSelectUnit_exclusive n d d' :
  OnSelectUnit flag_bit n w d = Some d' -> exclusive d -> exclusive d'.
Proof.
  apply (OnSelectUnit_Rel flag_bit w keeps_exclusive);
    unfold keeps_exclusive, exclusive; simpl; auto.
  intros d0 d0' [] [H|H]; [left|right]; try congruence.
  destruct ui_rsx0; congruence.
Qed.

(** *** Termination: two levels of calls always suffice *)

Lemma UpdateUI_settled n d :
  settled w d -> is_Some (UpdateUI flag_bit (S n) w d).
Proof.
  intros Hs. rewrite UpdateUI_S. unfold UpdateUI_with, UpdateUnitList_with.
  destruct (_ || _) eqn:G.
  { apply tallies_guard in G. destruct (settled_not_differ _ Hs G). }
  destruct (get_cpu flag_bit w d). eauto.
Qed.

Lemma OnSelectUnit_settled n d :
  settled w d -> is_Some (OnSelectUnit flag_bit (S n) w d).
Proof.
  intros Hs. unfold OnSelectUnit.
  destruct keeps_list_closed as [Ht Hu].
  destruct (OnSelectUnit_with_cases flag_bit w (keeps_list w) Ht Hu)
    with (d := d) as [(d0 & _ & ->)|(d8 & H8 & ->)];
    try (intros; intros ?; split; [assumption | reflexivity]); eauto.
  apply UpdateUI_settled, H8, Hs.
Qed.

Lemma UpdateUnitList_total n d :
  is_Some (UpdateUnitList flag_bit (S n) w d).
Proof.
  unfold UpdateUnitList, UpdateUnitList_with.
  destruct (_ || _); [|eauto].
  match goal with
  | |- context [OnSelectUnit flag_bit (S n) w ?x] =>
      destruct (OnSelectUnit_settled n x) as [d2 ->]
  end; [repeat split | eauto].
Qed.

Lemma UpdateUI_total n d : is_Some (UpdateUI flag_bit (S (S n)) w d).
Proof.
  change (is_Some (UpdateUI_with flag_bit (UpdateUnitList flag_bit (S n)) w d)).
  unfold UpdateUI_with.
  destruct (UpdateUnitList_total n d) as [d1 ->].
  destruct (get_cpu flag_bit w d1). eauto.
Qed.

Lemma OnSelectUnit_total n d : is_Some (OnSelectUnit flag_bit (S (S n)) w d).
Proof.
  unfold OnSelectUnit.
  destruct (OnSelectUnit_with_cases flag_bit w (fun _ _ => True))
    with (d := d) as [(d0 & _ & ->)|(d8 & _ & ->)]; auto.
  apply UpdateUI_total.
Qed.

End Invariants.

Section Depth.
Variable flag_bit : cpu_flag.t -> N.
Variable w : world.

(** The call depth is an artefact of the embedding: beyond two levels it
    does not change any result. *)
Lemma UpdateUI_settled_depth n d :
  settled w d -> UpdateUI flag_bit (S n) w d = UpdateUI flag_bit 1 w d.
Proof.
  intros Hs. rewrite !UpdateUI_S. unfold UpdateUI_with, UpdateUnitList_with.
  destruct (_ || _) eqn:G; [|reflexivity].
  apply tallies_guard in G. destruct (settled_not_differ _ _ Hs G).
Qed.

Lemma OnSelectUnit_keeps_list_cases d :
  (exists d0, keeps_list w d d0
              /\ forall K, OnSelectUnit_with flag_bit K w d = Some d0)
  \/ (exists d8, keeps_list w d d8
                 /\ forall K, OnSelectUnit_with flag_bit K w d = K w d8).
Proof.
  destruct (keeps_list_closed w) as [Ht Hu].
  apply (OnSelectUnit_with_cases flag_bit w (keeps_list w) Ht Hu);
    intros; intros ?; split; assumption || reflexivity.
Qed.

Lemma OnSelectUnit_settled_depth n d :
  settled w d ->
  OnSelectUnit flag_bit (S n) w d = OnSelectUnit flag_bit 1 w d.
Proof.
  intros Hs. unfold OnSelectUnit.
  destruct (OnSelectUnit_keeps_list_cases d) as [(d0 & _ & E)|(d8 & H8 & E)];
    rewrite !E; [reflexivity|].
  apply UpdateUI_settled_depth, H8, Hs.
Qed.

Lemma UpdateUnitList_depth n d :
  UpdateUnitList flag_bit (S n) w d = UpdateUnitList flag_bit 1 w d.
Proof.
  unfold UpdateUnitList, UpdateUnitList_with.
  destruct (_ || _); [|reflexivity].
  rewrite OnSelectUnit_settled_depth by (repeat split). reflexivity.
Qed.

Lemma UpdateUI_depth n d :
  UpdateUI flag_bit (S (S n)) w d = UpdateUI flag_bit 2 w d.
Proof.
  rewrite !UpdateUI_S. unfold UpdateUI_with.
  change (UpdateUnitList_with (OnSelectUnit_with flag_bit
                                 (UpdateUI flag_bit (S n))))
    with (UpdateUnitList flag_bit (S n)).
  change (UpdateUnitList_with (OnSelectUnit_with flag_bit
                                 (UpdateUI flag_bit 1)))
    with (UpdateUnitList flag_bit 1).
  rewrite UpdateUnitList_depth. reflexivity.
Qed.

End Depth.

(** ** Resolution of the selected thread *)

Section Resolution.

Variable flag_bit : cpu_flag.t -> N.
Variable w : world.

(** Resolving twice in a row gives the same thread and the same frame. *)
Lemma get_cpu_again d :
  get_cpu flag_bit w (snd (get_cpu flag_bit w d)) = get_cpu flag_bit w d.
Proof.
  unfold get_cpu.
  destruct (match m_cpu d with Some _ => _ | None => _ end) eqn:U; simpl.
  { rewrite U. reflexivity. }
  repeat (case_match; simpl in *; subst; rewrite ?U in *;
          try congruence; try reflexivity).
Qed.

Lemma get_cpu_emitted d : emitted (snd (get_cpu flag_bit w d)) = emitted d.
Proof. unfold get_cpu. repeat case_match; reflexivity. Qed.

(** The second half of [get_cpu], taken when no CPU thread is usable. *)
Lemma get_cpu_rsx d :
  match m_cpu d with
  | Some p =>
      negb (bs_add (bs_add (cpu_thread.state (deref w p))
                      (flag flag_bit cpu_flag.wait))
              (flag flag_bit cpu_flag.exit)
            =? cpu_thread.state (deref w p))%N
  | None => false
  end = false ->
  forall r, fst (get_cpu flag_bit w d) = Some r <->
            m_rsx d = Some r /\ fxo_rsx w = Some r
            /\ cpu_thread.ctrl (deref w r) = true.
Proof.
  intros U r. unfold get_cpu. rewrite U. simpl.
  case_bool_decide as Hne; simpl.
  - split; [discriminate|]. intros (E1 & E2 & _). congruence.
  - destruct (m_rsx d) as [r0|] eqn:Er.
    + destruct (cpu_thread.ctrl (deref w r0)) eqn:Ec; simpl; rewrite ?Er.
      * split; [intros [= <-]; auto | tauto].
      * split; [discriminate|]. intros ([= <-] & _ & E). congruence.
    + rewrite Er. split; [discriminate|]. intros (E & _). discriminate.
Qed.

(** C5 — [get_cpu] returns the held CPU thread exactly when its state does
    not have [wait] and [exit] both set; a held CPU thread with both set
    resolves to no unit (the frame then holds no RSX pointer); and when no
    CPU thread is usable, the RSX thread is returned only if the held
    pointer is the live instance of the registry and its [ctrl] handle is
    non-null, no unit being returned otherwise. *)
Theorem get_cpu_resolution d :
  (forall p, m_cpu d = Some p ->
     let s := cpu_thread.state (deref w p) in
     (is_set flag_bit s cpu_flag.wait && is_set flag_bit s cpu_flag.exit
      = false ->
      fst (get_cpu flag_bit w d) = Some p)
     /\ (is_set flag_bit s cpu_flag.wait && is_set flag_bit s cpu_flag.exit
         = true ->
         exclusive d -> fst (get_cpu flag_bit w d) = None)
     /\ (is_set flag_bit s cpu_flag.wait && is_set flag_bit s cpu_flag.exit
         = true ->
         forall r, fst (get_cpu flag_bit w d) = Some r <->
                   m_rsx d = Some r /\ fxo_rsx w = Some r
                   /\ cpu_thread.ctrl (deref w r) = true))
  /\ (m_cpu d = None ->
      forall r, fst (get_cpu flag_bit w d) = Some r <->
                m_rsx d = Some r /\ fxo_rsx w = Some r
                /\ cpu_thread.ctrl (deref w r) = true).
Proof.
  split.
  - intros p Hp s.
    assert (U : is_set flag_bit s cpu_flag.wait
                && is_set flag_bit s cpu_flag.exit = true ->
                forall r, fst (get_cpu flag_bit w d) = Some r <->
                          m_rsx d = Some r /\ fxo_rsx w = Some r
                          /\ cpu_thread.ctrl (deref w r) = true).
    { intros Hs. apply get_cpu_rsx. rewrite Hp. fold s.
      rewrite wait_exit_absorbed, Hs. reflexivity. }
    split; [|split].
    + intros Hs. unfold get_cpu. rewrite Hp. fold s.
      rewrite wait_exit_absorbed, Hs. reflexivity.
    + intros Hs [Hc|Hr]; [congruence|].
      specialize (U Hs).
      destruct (fst (get_cpu flag_bit w d)) as [r|]; [|reflexivity].
      destruct (proj1 (U r) eq_refl) as (E & _). congruence.
    + exact U.
  - intros Hc. apply get_cpu_rsx. rewrite Hc. reflexivity.
Qed.

End Resolution.

(** ** The poll and the pending step-over breakpoint *)

Section Retirement.

Variable flag_bit : cpu_flag.t -> N.
Variable w : world.

Lemma remove_not_contained loc h :
  breakpoint_handler.contains loc (breakpoint_handler.remove loc h) = false.
Proof.
  unfold breakpoint_handler.contains, breakpoint_handler.remove.
  apply bool_decide_eq_false_2. rewrite elem_of_difference, elem_of_singleton.
  tauto.
Qed.

(** C4 — on a poll ([DoUpdate]), when a step-over breakpoint is pending and
    its address is the program counter of the selected thread, the
    breakpoint is removed from the set and the marker is cleared; in every
    other case the poll leaves the marker and the breakpoint set as they
    are. *)
Theorem DoUpdate_retirement d :
  let d' := DoUpdate flag_bit w d in
  let last := m_last_step_over_breakpoint d in
  (forall p,
     fst (get_cpu flag_bit w d) = Some p ->
     last <> umax ->
     cpu_thread.pc (deref w p) = last ->
     m_breakpoint_handler d'
     = breakpoint_handler.remove last (m_breakpoint_handler d)
     /\ breakpoint_handler.contains last (m_breakpoint_handler d') = false
     /\ m_last_step_over_breakpoint d' = umax)
  /\ (~ (exists p, fst (get_cpu flag_bit w d) = Some p
                   /\ last <> umax /\ cpu_thread.pc (deref w p) = last) ->
      m_breakpoint_handler d' = m_breakpoint_handler d
      /\ m_last_step_over_breakpoint d' = last).
Proof.
  intros d' last. subst d'. unfold DoUpdate.
  destruct (get_cpu_split flag_bit w d) as (cpu & d1 & E & H).
  rewrite E. simpl.
  assert (Hl : m_last_step_over_breakpoint d1 = last) by apply H.
  assert (Hb : m_breakpoint_handler d1 = m_breakpoint_handler d) by apply H.
  rewrite Hl.
  match goal with
  | |- context [WritePanels flag_bit w (ShowPC flag_bit w ?x)] => set (d2 := x)
  end.
  assert (Hu : ui_step d2 (WritePanels flag_bit w (ShowPC flag_bit w d2))).
  { eapply ui_step_trans; [apply ShowPC_ui | apply WritePanels_ui]. }
  destruct Hu as [_ _ _ _ _ _ _ _ -> _ -> _].
  split.
  - intros p [= ->] Hne Hpc. unfold d2.
    rewrite Hpc, Z.eqb_refl, (proj2 (Z.eqb_neq _ _) Hne). simpl.
    rewrite Hb. auto using remove_not_contained.
  - intros Hno. unfold d2. destruct cpu as [p|]; [|auto].
    destruct (negb (last =? umax)) eqn:E1; simpl; [|auto].
    destruct (cpu_thread.pc (deref w p) =? last) eqn:E2; [|auto].
    destruct Hno. exists p.
    apply negb_true_iff, Z.eqb_neq in E1. apply Z.eqb_eq in E2. auto.
Qed.

End Retirement.

(** ** Selection *)

Lemma currentData_count box k :
  QComboBox.currentData box = VWeak k -> (QComboBox.count box <? 1) = false.
Proof.
  unfold QComboBox.currentData, QComboBox.count.
  destruct (QComboBox.currentIndex box <? 0); [discriminate|].
  destruct (QComboBox.items box) as [|e l]; simpl.
  - destruct (Z.to_nat _); discriminate.
  - intros _. apply Z.ltb_ge. lia.
Qed.

(** C7 — selecting the entry whose weak reference is the one already bound,
    while the cached emulator state is not [stopped], is a no-op: the call
    returns with the frame untouched (same disassembler, same selection, no
    call emitted). *)
Theorem reselect_same_unit flag_bit depth w d k :
  QComboBox.currentData (m_choice_units d) = VWeak k ->
  k = m_cpu d ->
  m_emu_state d <> stopped ->
  OnSelectUnit flag_bit depth w d = Some d.
Proof.
  intros Hd Hk Hs. unfold OnSelectUnit, OnSelectUnit_with.
  rewrite (currentData_count _ _ Hd), Hd.
  change (value_rsx (VWeak k)) with (@None ptr).
  change (value_weak (VWeak k)) with k.
  rewrite (bool_decide_eq_false_2 _ Hs), (bool_decide_eq_true_2 _ Hk).
  reflexivity.
Qed.

(** ** Address evaluation *)

Section Evaluation.

Variable flag_bit : cpu_flag.t -> N.
Variable toULong16 : string -> option Z.
Variable w : world.

Lemma hex_only_prefixed e : hex_only (String.append "0x" e) = false.
Proof. reflexivity. Qed.

(** C8 — a text made of hexadecimal digits only evaluates as the same text
    after [0x] (both ["1004"] and ["0x1004"] give [0x1004] as soon as the
    number parser reads ["0x1004"] so); and when the text handed to the
    parser is rejected, the result is the program counter of the selected
    thread. *)
Theorem EvaluateExpression_text d :
  (forall e, hex_only e = true ->
     EvaluateExpression flag_bit toULong16 w d e
     = EvaluateExpression flag_bit toULong16 w d (String.append "0x" e))
  /\ (toULong16 "0x1004"%string = Some 4100 ->
      fst (EvaluateExpression flag_bit toULong16 w d "1004") = 4100
      /\ fst (EvaluateExpression flag_bit toULong16 w d "0x1004") = 4100)
  /\ (forall e p,
        toULong16 (if hex_only e then String.append "0x" e else e) = None ->
        fst (get_cpu flag_bit w d) = Some p ->
        fst (EvaluateExpression flag_bit toULong16 w d e)
        = cpu_thread.pc (deref w p)).
Proof.
  split; [|split].
  - intros e He. unfold EvaluateExpression.
    rewrite hex_only_prefixed, He. reflexivity.
  - intros H. unfold EvaluateExpression.
    change (hex_only "1004") with true. change (hex_only "0x1004") with false.
    change (String.append "0x" "1004") with "0x1004"%string.
    cbv iota. rewrite H. split; reflexivity.
  - intros e p He Hp. unfold EvaluateExpression. rewrite He.
    destruct (get_cpu flag_bit w d) as [c d1]. simpl in Hp. subst c.
    reflexivity.
Qed.

(** C10 — when the text is rejected by the parser and no thread is
    selected, [EvaluateExpression] returns 0, and the accepted "Go To
    Address" dialog navigates to address 0. *)
Theorem EvaluateExpression_no_target d e :
  toULong16 (if hex_only e then String.append "0x" e else e) = None ->
  fst (get_cpu flag_bit w d) = None ->
  fst (EvaluateExpression flag_bit toULong16 w d e) = 0
  /\ emitted (ShowGotoAddressDialog flag_bit toULong16 w d (Some e))
     = emitted d ++ [ShowAddress 0 None].
Proof.
  intros He Hn.
  assert (Hev : forall d0, fst (get_cpu flag_bit w d0) = None ->
            EvaluateExpression flag_bit toULong16 w d0 e
            = (0, snd (get_cpu flag_bit w d0))).
  { intros d0 H0. unfold EvaluateExpression. rewrite He.
    destruct (get_cpu flag_bit w d0) as [c d1]. simpl in H0. subst c.
    reflexivity. }
  split; [rewrite (Hev d Hn); reflexivity|].
  unfold ShowGotoAddressDialog.
  destruct (get_cpu flag_bit w d) as [c d1] eqn:E1.
  pose proof (get_cpu_again flag_bit w d) as E2. rewrite E1 in E2. simpl in E2.
  rewrite E2. rewrite Hev by (rewrite E2; exact Hn).
  simpl. rewrite E2. simpl.
  pose proof (get_cpu_emitted flag_bit w d) as E3. rewrite E1 in E3.
  simpl in E3. rewrite E3. reflexivity.
Qed.

End Evaluation.

(** ** Run, pause and step *)

Section Stepping.

Variable flag_bit : cpu_flag.t -> N.

Lemma deref_lookup w p c : heap w !! p = Some c -> deref w p = c.
Proof. unfold deref. intros ->. reflexivity. Qed.

Lemma deref_atomic_op {R} (f : bs_t -> bs_t * R) w p c :
  heap w !! p = Some c ->
  deref (fst (atomic_op f p w)) p
  = cpu_thread.set_state (fun _ => fst (f (cpu_thread.state c))) c.
Proof.
  intros H. unfold atomic_op. rewrite (deref_lookup _ _ _ H).
  unfold deref. simpl. rewrite lookup_alter_eq, H. reflexivity.
Qed.

Lemma paused_sub_pause s :
  dbg_paused flag_bit (bs_sub s (s_pause_flags flag_bit)) = false.
Proof.
  unfold dbg_paused. rewrite !is_set_sub, !is_set_pause_flags.
  rewrite !(bool_decide_eq_true_2 _ eq_refl), orb_true_r. simpl.
  rewrite !andb_false_r. reflexivity.
Qed.

Lemma paused_add_pause s :
  dbg_paused flag_bit (bs_add s (flag flag_bit cpu_flag.dbg_pause)) = true.
Proof.
  unfold dbg_paused. rewrite is_set_add, is_set_flag.
  rewrite (bool_decide_eq_true_2 _ eq_refl), orb_true_r. reflexivity.
Qed.

(** C2 — for every flag word of the selected thread, the run/pause button
    performs one read-modify-write: with [dbg_pause] or [dbg_global_pause]
    set it clears both, otherwise it sets [dbg_pause]; the thread is
    notified exactly when the flags went from "some pause flag set" to "none
    set", once, and never when the button pauses. *)
Theorem run_pause_toggle n w d p c :
  fst (get_cpu flag_bit w d) = Some p ->
  heap w !! p = Some c ->
  exists w' d',
    btn_run_clicked flag_bit (S (S n)) w d = Some (w', d')
    /\ let s := cpu_thread.state c in
       let s' := cpu_thread.state (deref w' p) in
       s' = (if dbg_paused flag_bit s
             then bs_sub s (s_pause_flags flag_bit)
             else bs_add s (flag flag_bit cpu_flag.dbg_pause))
       /\ dbg_paused flag_bit s' = negb (dbg_paused flag_bit s)
       /\ notified w'
          = notified w ++ (if dbg_paused flag_bit s then [p] else []).
Proof.
  intros Hc Hh. unfold btn_run_clicked.
  destruct (get_cpu flag_bit w d) as [cpu d1]. simpl in Hc. subst cpu.
  pose proof (deref_atomic_op (run_or_pause flag_bit) w p c Hh) as Hd.
  destruct (atomic_op (run_or_pause flag_bit) p w) as [w1 old] eqn:Ea.
  assert (Hold : old = cpu_thread.state (deref w1 p)).
  { simpl in Hd. rewrite Hd. unfold atomic_op in Ea. injection Ea as _ <-.
    rewrite (deref_lookup _ _ _ Hh). reflexivity. }
  assert (Hn : notified w1 = notified w).
  { unfold atomic_op in Ea. injection Ea as <- _. reflexivity. }
  simpl in Hd.
  assert (Hs : cpu_thread.state (deref w1 p)
               = if dbg_paused flag_bit (cpu_thread.state c)
                 then bs_sub (cpu_thread.state c) (s_pause_flags flag_bit)
                 else bs_add (cpu_thread.state c)
                        (flag flag_bit cpu_flag.dbg_pause)).
  { rewrite Hd. unfold run_or_pause. simpl. rewrite bs_and_pause.
    reflexivity. }
  match goal with
  | |- context [UpdateUI flag_bit _ ?w' d1] =>
      destruct (UpdateUI_total flag_bit w' n d1) as [d2 E]; set (w2 := w') in *
  end.
  rewrite E. exists w2, d2. split; [reflexivity|]. simpl.
  unfold w2. rewrite Hold, bs_and_pause, Hs.
  destruct (dbg_paused flag_bit (cpu_thread.state c)) eqn:Ep.
  - rewrite paused_sub_pause. simpl.
    change (deref (notify p w1) p) with (deref w1 p). rewrite Hs, Hn.
    rewrite paused_sub_pause. auto.
  - rewrite paused_add_pause. simpl. rewrite Hs, Hn, paused_add_pause.
    rewrite app_nil_r. auto.
Qed.


(** The poll only appends to the trace of calls. *)
Lemma UpdateUI_emitted n w d d' :
  UpdateUI flag_bit n w d = Some d' -> exists l, emitted d' = emitted d ++ l.
Proof.
  apply (UpdateUI_Rel flag_bit w
           (fun d d' => exists l, emitted d' = emitted d ++ l)).
  - intros d1 d2 d3 [l1 E1] [l2 E2]. exists (l1 ++ l2).
    rewrite E2, E1. symmetry. apply app_assoc.
  - intros d0 d0' []. assumption.
  - intros. exists []. symmetry. apply app_nil_r.
  - intros. eexists. reflexivity.
  - intros. exists []. symmetry. apply app_nil_r.
  - intros. exists []. symmetry. apply app_nil_r.
  - intros. exists []. symmetry. apply app_nil_r.
  - intros. exists []. symmetry. apply app_nil_r.
  - intros. exists []. symmetry. apply app_nil_r.
Qed.

Hypothesis flag_bit_inj : forall f g, flag_bit f = flag_bit g -> f = g.

Lemma step_flags s :
  let s' := bs_add (bs_sub s (s_pause_flags flag_bit))
              (flag flag_bit cpu_flag.dbg_step) in
  is_set flag_bit s' cpu_flag.dbg_pause = false
  /\ is_set flag_bit s' cpu_flag.dbg_global_pause = false
  /\ is_set flag_bit s' cpu_flag.dbg_step = true.
Proof.
  simpl. rewrite !is_set_add, !is_set_sub, !is_set_pause_flags, !is_set_flag.
  rewrite !(bool_decide_eq_true_2 _ eq_refl).
  rewrite !bool_decide_eq_false_2
    by (intros H; apply flag_bit_inj in H; discriminate).
  rewrite ?orb_true_r, ?andb_false_r. auto.
Qed.

(** C3 — a plain step ([stepOver] false) on a selected thread with a pause
    flag set clears [dbg_pause] and [dbg_global_pause], sets [dbg_step] and
    notifies the thread; with no pause flag set it changes nothing on the
    emulator side (flags, notifications).  In both cases the breakpoints are
    touched by the closing [UpdateUI] only, which at most retires the pending
    step-over breakpoint. *)
Theorem plain_step n w d p c :
  fst (get_cpu flag_bit w d) = Some p ->
  heap w !! p = Some c ->
  exists w' d',
    DoStep flag_bit (S (S n)) false w d = Some (w', d')
    /\ retired d d'
    /\ let s := cpu_thread.state c in
       if dbg_paused flag_bit s then
         let s' := cpu_thread.state (deref w' p) in
         s' = bs_add (bs_sub s (s_pause_flags flag_bit))
                (flag flag_bit cpu_flag.dbg_step)
         /\ is_set flag_bit s' cpu_flag.dbg_pause = false
         /\ is_set flag_bit s' cpu_flag.dbg_global_pause = false
         /\ is_set flag_bit s' cpu_flag.dbg_step = true
         /\ notified w' = notified w ++ [p]
       else w' = w.
Proof.
  intros Hc Hh. unfold DoStep.
  pose proof (get_cpu_ui flag_bit w d) as Hu.
  destruct (get_cpu flag_bit w d) as [cpu d1]. simpl in Hc, Hu. subst cpu.
  rewrite (deref_lookup _ _ _ Hh), bs_and_pause. simpl.
  destruct (dbg_paused flag_bit (cpu_thread.state c)) eqn:Ep.
  - match goal with |- context [notify p ?x] => set (w1 := x) end.
    assert (Hd : cpu_thread.state (deref w1 p)
                 = bs_add (bs_sub (cpu_thread.state c) (s_pause_flags flag_bit))
                     (flag flag_bit cpu_flag.dbg_step)).
    { unfold w1, deref. simpl. rewrite lookup_alter_eq, Hh. reflexivity. }
    assert (Hn : notified w1 = notified w) by reflexivity.
    clearbody w1.
    destruct (UpdateUI_total flag_bit (notify p w1) n d1) as [d3 E].
    rewrite E. exists (notify p w1), d3. split; [reflexivity|].
    split.
    { eapply retired_trans; [apply retired_ui, Hu|].
      eapply UpdateUI_retired, E. }
    change (deref (notify p w1) p) with (deref w1 p). rewrite Hd.
    change (notified (notify p w1)) with (notified w1 ++ [p]). rewrite Hn.
    pose proof (step_flags (cpu_thread.state c)) as Hf. simpl in Hf. tauto.
  - destruct (UpdateUI_total flag_bit w n d1) as [d3 E].
    rewrite E. exists w, d3. split; [reflexivity|].
    split; [|reflexivity].
    eapply retired_trans; [apply retired_ui, Hu|].
    eapply UpdateUI_retired, E.
Qed.

Lemma contains_remove_other a loc h :
  breakpoint_handler.normalize a <> breakpoint_handler.normalize loc ->
  breakpoint_handler.contains a (breakpoint_handler.remove loc h)
  = breakpoint_handler.contains a h.
Proof.
  intros Hne. unfold breakpoint_handler.contains, breakpoint_handler.remove.
  apply bool_decide_ext. rewrite elem_of_difference, elem_of_singleton. tauto.
Qed.

Lemma contains_add_other a loc h :
  breakpoint_handler.normalize a <> breakpoint_handler.normalize loc ->
  breakpoint_handler.contains a (breakpoint_handler.add loc h)
  = breakpoint_handler.contains a h.
Proof.
  intros Hne. unfold breakpoint_handler.contains, breakpoint_handler.add.
  apply bool_decide_ext. rewrite elem_of_union, elem_of_singleton. tauto.
Qed.

(** C1, what the code does — a step-over on a paused PPU thread at [A]
    while a step-over breakpoint is still pending calls [AddBreakpoint] and
    then [RemoveBreakpoint] on [A+4]: afterwards the coordinator holds no
    breakpoint at [A+4], and every other address, the previously pending one
    included, is in the set exactly if it was before. *)
Theorem step_over_with_pending n w d p c :
  fst (get_cpu flag_bit w d) = Some p ->
  heap w !! p = Some c ->
  cpu_thread.id_type c = 1 ->
  dbg_paused flag_bit (cpu_thread.state c) = true ->
  m_last_step_over_breakpoint d <> umax ->
  let next := wrap32 (cpu_thread.pc c + 4) in
  exists w' d',
    DoStep flag_bit (S (S n)) true w d = Some (w', d')
    /\ breakpoint_handler.contains next (m_breakpoint_handler d') = false
    /\ (forall a,
          breakpoint_handler.normalize a <> breakpoint_handler.normalize next ->
          breakpoint_handler.contains a (m_breakpoint_handler d')
          = breakpoint_handler.contains a (m_breakpoint_handler d))
    /\ exists l, emitted d'
                 = emitted d ++ AddBreakpoint next :: RemoveBreakpoint next :: l.
Proof.
  intros Hc Hh Hid Hp Hl next. unfold DoStep.
  pose proof (get_cpu_ui flag_bit w d) as Hu.
  pose proof (get_cpu_emitted flag_bit w d) as He1.
  destruct (get_cpu flag_bit w d) as [cpu d1]. simpl in Hc, Hu, He1.
  subst cpu.
  rewrite (deref_lookup _ _ _ Hh), bs_and_pause, Hp, Hid. simpl.
  fold next.
  destruct Hu as [_ _ _ _ _ _ _ _ Hl1 _ Hb1 _].
  rewrite Hl1, (proj2 (Z.eqb_neq _ _) Hl). simpl.
  match goal with
  | |- context [UpdateUI flag_bit _ ?w' ?x] =>
      destruct (UpdateUI_total flag_bit w' n x) as [d3 E];
      set (w2 := w') in *; set (d2 := x) in *
  end.
  rewrite E. exists w2, d3. split; [reflexivity|].
  assert (Hb2 : m_breakpoint_handler d2
                = breakpoint_handler.remove next
                    (breakpoint_handler.add next (m_breakpoint_handler d)))
    by (unfold d2; simpl; rewrite Hb1; reflexivity).
  assert (Hm2 : m_last_step_over_breakpoint d2 = next) by reflexivity.
  assert (He2 : emitted d2 = emitted d1 ++ [AddBreakpoint next;
                                            RemoveBreakpoint next]).
  { unfold d2. simpl. rewrite <- app_assoc. reflexivity. }
  repeat split.
  - destruct (UpdateUI_retired flag_bit w2 _ _ _ E) as [[-> _]|(_ & -> & _)].
    + rewrite Hb2. apply remove_not_contained.
    + rewrite Hm2. apply remove_not_contained.
  - intros a Ha.
    destruct (UpdateUI_retired flag_bit w2 _ _ _ E) as [[-> _]|(_ & -> & _)];
      rewrite ?Hm2, Hb2, ?contains_remove_other, ?contains_add_other by exact Ha;
      reflexivity.
  - destruct (UpdateUI_emitted _ _ _ _ E) as [l ->]. exists l.
    rewrite He2, He1, <- app_assoc. reflexivity.
Qed.

End Stepping.

(** ** The thread list *)

Lemma on_select_items emu_state old_cpu w l : forall box,
  QComboBox.items (fold_left (on_select emu_state old_cpu w) l box)
  = QComboBox.items box
    ++ (if bool_decide (emu_state = stopped) then []
        else map (thread_entry w) l).
Proof.
  induction l as [|e l IH]; intros box.
  - cbn [fold_left map]. destruct (bool_decide _); symmetry; apply app_nil_r.
  - cbn [fold_left map]. rewrite IH. destruct e as [i p]. unfold on_select.
    destruct (bool_decide (emu_state = stopped)); [reflexivity|].
    destruct (bool_decide (old_cpu = _));
      cbn [QComboBox.items QComboBox.addItem QComboBox.setCurrentIndex];
      rewrite <- app_assoc; reflexivity.
Qed.

(** C6 — [UpdateUnitList] is a no-op (list, selection and cached values
    untouched) when the two counters and the lifecycle state are the cached
    ones; a call that changes the list therefore saw one of them differ;
    and when one differs, the call caches the live values and shows the
    list rebuilt from the live registries. *)
Theorem UpdateUnitList_refresh flag_bit n w d :
  (~ tallies_differ w d ->
   forall depth, UpdateUnitList flag_bit depth w d = Some d)
  /\ (forall depth d',
        UpdateUnitList flag_bit depth w d = Some d' ->
        m_choice_units d' <> m_choice_units d -> tallies_differ w d)
  /\ (tallies_differ w d ->
      exists d',
        UpdateUnitList flag_bit (S n) w d = Some d'
        /\ settled w d'
        /\ QComboBox.items (m_choice_units d') = visible_list w).
Proof.
  assert (Hnop : ~ tallies_differ w d ->
                 forall depth, UpdateUnitList flag_bit depth w d = Some d).
  { intros Hn depth. unfold UpdateUnitList, UpdateUnitList_with.
    destruct (_ || _) eqn:G; [|reflexivity].
    apply tallies_guard in G. contradiction. }
  split; [exact Hnop|]. split.
  - intros depth d' E Hne.
    destruct (negb (g_threads_created w =? m_threads_created d)
              || negb (g_threads_deleted w =? m_threads_deleted d)
              || bool_decide (emu_status w <> m_emu_state d)) eqn:G.
    + apply tallies_guard, G.
    + assert (Hn : ~ tallies_differ w d).
      { intros H. apply tallies_guard in H. congruence. }
      rewrite (Hnop Hn) in E. congruence.
  - intros Hd. apply tallies_guard in Hd.
    unfold UpdateUnitList, UpdateUnitList_with. rewrite Hd.
    match goal with
    | |- context [OnSelectUnit flag_bit (S n) w ?x] =>
        set (dx := x);
        assert (Hs : settled w dx) by (repeat split);
        destruct (OnSelectUnit_settled flag_bit w n dx Hs) as [d2 E]
    end.
    rewrite E. eexists. split; [reflexivity|].
    destruct (OnSelectUnit_keeps_list flag_bit w _ _ _ E Hs) as [Hs2 Hb].
    split; [exact Hs2|].
    change (m_choice_units (emit choice_units_update d2))
      with (m_choice_units d2).
    rewrite Hb. unfold dx, visible_list.
    change (m_choice_units (with_choice_units ?b _)) with b.
    destruct (fxo_rsx w) as [render|].
    + destruct (negb (bool_decide (emu_status w = stopped))
                && cpu_thread.ctrl (deref w render)).
      * match goal with
        | |- context [if ?b then QComboBox.setCurrentIndex _ _ else _] =>
            destruct b
        end; simpl QComboBox.items; rewrite !on_select_items; simpl;
          destruct (bool_decide (emu_status w = stopped)); simpl;
          rewrite ?map_app, <- ?app_assoc; reflexivity.
      * rewrite !on_select_items; simpl;
          destruct (bool_decide (emu_status w = stopped)); simpl;
          rewrite ?map_app, <- ?app_assoc, ?app_nil_r; reflexivity.
    + rewrite !on_select_items; simpl;
        destruct (bool_decide (emu_status w = stopped)); simpl;
        rewrite ?map_app, <- ?app_assoc, ?app_nil_r; reflexivity.
Qed.

(** ** The "next instruction" key *)

Section NextInstruction.

Variable flag_bit : cpu_flag.t -> N.
Variable op_branch_targets_spu : Z -> Z -> Z * Z.
Variable op_branch_targets_ppu : Z -> Z -> Z * Z.
Variable toULong16 : string -> option Z.

(** C9 — the N key navigates nowhere when the predictor gives no candidate
    address; for a PPU thread whose marked address is not executable memory
    it does not call [try_access] and predicts nothing; in all these cases
    the handler returns, the emulator side untouched. *)
Theorem next_instruction_key depth ev w d p :
  isActiveWindow ev = true ->
  key ev = Key_N ->
  ControlModifier ev = false ->
  fst (get_cpu flag_bit w d) = Some p ->
  let c := deref w p in
  let pc := marked_pc ev c in
  exists d',
    keyPressEvent flag_bit op_branch_targets_spu op_branch_targets_ppu
      toULong16 depth ev w d = Some (w, d')
    /\ (cpu_thread.id_type c = 1 -> vm_check_addr w pc = false ->
        emitted d' = emitted d)
    /\ (cpu_thread.id_type c = 1 -> vm_check_addr w pc = true ->
        (forall op, vm_try_access w pc = Some op ->
                    op_branch_targets_ppu pc op = (umax, umax)) ->
        emitted d' = emitted d ++ [try_access pc])
    /\ (cpu_thread.id_type c = 2 ->
        op_branch_targets_spu pc (spu_ref w p pc) = (umax, umax) ->
        emitted d' = emitted d ++ [ls_ref p pc])
    /\ (cpu_thread.id_type c <> 1 -> cpu_thread.id_type c <> 2 ->
        emitted d' = emitted d).
Proof.
  intros Ha Hk Hm Hc c pc. unfold keyPressEvent.
  rewrite Ha, Hk, Hm.
  pose proof (get_cpu_emitted flag_bit w d) as He.
  destruct (get_cpu flag_bit w d) as [cpu d1]. simpl in Hc, He. subst cpu.
  fold c. fold pc. cbn [negb].
  destruct (Z.eqb_spec (cpu_thread.id_type c) 2) as [E2|E2].
  - destruct (op_branch_targets_spu pc (spu_ref w p pc)) as [t0 t1] eqn:Et.
    destruct (find_last_not_of_max (t0, t1)) eqn:Ef; eexists;
      (split; [reflexivity|]); repeat split; intros; try congruence.
    + injection H0 as -> ->. discriminate.
    + simpl. rewrite He. reflexivity.
  - destruct (Z.eqb_spec (cpu_thread.id_type c) 1) as [E1|E1].
    + destruct (vm_check_addr w pc) eqn:Ev.
      * destruct (vm_try_access w pc) as [op|] eqn:Et.
        -- destruct (op_branch_targets_ppu pc op) as [t0 t1] eqn:Eo.
           destruct (find_last_not_of_max (t0, t1)) eqn:Ef; eexists;
             (split; [reflexivity|]); repeat split; intros;
             try congruence.
           ++ rewrite (H1 op eq_refl) in Eo. injection Eo as <- <-.
              discriminate.
           ++ simpl. rewrite He. reflexivity.
        -- eexists. split; [reflexivity|]. repeat split; intros;
             try congruence. simpl. rewrite He. reflexivity.
      * eexists. split; [reflexivity|]. repeat split; intros;
          try congruence.
    + eexists. split; [reflexivity|]. repeat split; intros;
        try congruence.
Qed.

End NextInstruction.

(** Every entry point keeps the selection exclusive: the frame starts with
    an empty [m_cpu], and [get_cpu], the poll and the actions preserve it. *)
Lemma get_cpu_exclusive flag_bit w d :
  exclusive d -> exclusive (snd (get_cpu flag_bit w d)).
Proof.
  destruct (get_cpu_ui flag_bit w d). unfold exclusive.
  intros [H|H]; [left|right]; try congruence.
  destruct ui_rsx0; congruence.
Qed.

Lemma DoStep_exclusive flag_bit depth stepOver w d w' d' :
  DoStep flag_bit depth stepOver w d = Some (w', d') ->
  exclusive d -> exclusive d'.
Proof.
  unfold DoStep. pose proof (get_cpu_exclusive flag_bit w d) as Hg.
  destruct (get_cpu flag_bit w d) as [cpu d1]. simpl in Hg.
  match goal with
  | |- context [let '(_, _) := ?x in _] => destruct x as [w1 d2] eqn:E
  end.
  destruct (UpdateUI flag_bit depth w1 d2) as [d3|] eqn:EU; [|discriminate].
  intros [= <- <-] Hx. eapply UpdateUI_exclusive; [exact EU|].
  assert (H2 : exclusive d1 -> exclusive d2).
  { destruct cpu as [p|]; [|injection E as _ <-; auto].
    destruct (bs_and _ _); [|injection E as _ <-; auto].
    destruct (stepOver && _).
    - destruct (atomic_op _ p w). injection E as _ <-.
      destruct (negb _); auto.
    - destruct (atomic_op _ p w). injection E as _ <-. auto. }
  auto.
Qed.

Lemma btn_run_clicked_exclusive flag_bit depth w d w' d' :
  btn_run_clicked flag_bit depth w d = Some (w', d') ->
  exclusive d -> exclusive d'.
Proof.
  unfold btn_run_clicked. pose proof (get_cpu_exclusive flag_bit w d) as Hg.
  destruct (get_cpu flag_bit w d) as [cpu d1]. simpl in Hg.
  match goal with
  | |- context [UpdateUI flag_bit depth ?x d1] =>
      destruct (UpdateUI flag_bit depth x d1) as [d2|] eqn:EU; [|discriminate]
  end.
  intros [= _ <-] Hx. eapply UpdateUI_exclusive; [exact EU|]. auto.
Qed.

(** ** The properties on concrete states *)

Lemma sample_flag_bit_inj f g : sample_flag_bit f = sample_flag_bit g -> f = g.
Proof. destruct f, g; intros H; first [reflexivity | discriminate H]. Qed.

(** The step-over of C1 run on the PPU thread paused at 0x1000 while a
    step-over breakpoint is pending at 0x2004: the calls are
    [AddBreakpoint 0x1004] then [RemoveBreakpoint 0x1004], the stale
    breakpoint stays, no breakpoint is left at 0x1004. *)
Lemma step_over_stale_breakpoint :
  exists w' d',
    DoStep sample_flag_bit 2 true paused_world stale_frame = Some (w', d')
    /\ breakpoint_handler.contains 4100 (m_breakpoint_handler d') = false
    /\ (forall a,
          breakpoint_handler.normalize a <> breakpoint_handler.normalize 4100 ->
          breakpoint_handler.contains a (m_breakpoint_handler d')
          = breakpoint_handler.contains a (m_breakpoint_handler stale_frame))
    /\ exists l, emitted d'
                 = emitted stale_frame
                   ++ AddBreakpoint 4100 :: RemoveBreakpoint 4100 :: l.
Proof.
  apply (step_over_with_pending sample_flag_bit 0 paused_world stale_frame
           1%N ppu_paused); try reflexivity.
  discriminate.
Defined.

Example step_over_failing_input :
  exists w' d',
    DoStep sample_flag_bit 2 true paused_world stale_frame = Some (w', d')
    /\ breakpoint_handler.contains 8196 (m_breakpoint_handler d') = true
    /\ breakpoint_handler.contains 4100 (m_breakpoint_handler d') = false
    /\ m_last_step_over_breakpoint d' = 4100.
Proof.
  eexists _, _. split; [vm_compute; reflexivity|]. vm_compute. auto.
Qed.

(** The first step-over, nothing pending: the breakpoint at 0x1004 is set
    and recorded. *)
Example step_over_first :
  exists w' d',
    DoStep sample_flag_bit 2 true paused_world fresh_frame = Some (w', d')
    /\ breakpoint_handler.contains 4100 (m_breakpoint_handler d') = true
    /\ m_last_step_over_breakpoint d' = 4100.
Proof.
  eexists _, _. split; [vm_compute; reflexivity|]. vm_compute. auto.
Qed.

Lemma run_pause_toggle_paused :
  exists w' d',
    btn_run_clicked sample_flag_bit 2 paused_world fresh_frame = Some (w', d')
    /\ cpu_thread.state (deref w' 1%N) = 0%N
    /\ notified w' = [1%N].
Proof.
  destruct (run_pause_toggle sample_flag_bit 0 paused_world fresh_frame
              1%N ppu_paused eq_refl eq_refl) as (w' & d' & E & Hs & _ & Hn).
  exists w', d'. auto.
Defined.

(** Pausing the running thread sets [dbg_pause] and notifies nobody. *)
Example run_pause_toggle_running :
  exists w' d',
    btn_run_clicked sample_flag_bit 2 running_world fresh_frame = Some (w', d')
    /\ cpu_thread.state (deref w' 1%N) = 1024%N
    /\ notified w' = [].
Proof.
  eexists _, _. split; [vm_compute; reflexivity|]. vm_compute. auto.
Qed.

Lemma plain_step_paused :
  exists w' d',
    DoStep sample_flag_bit 2 false paused_world fresh_frame = Some (w', d')
    /\ cpu_thread.state (deref w' 1%N) = 2048%N
    /\ notified w' = [1%N].
Proof.
  destruct (plain_step sample_flag_bit sample_flag_bit_inj 0 paused_world
              fresh_frame 1%N ppu_paused eq_refl eq_refl)
    as (w' & d' & E & _ & Hs & _ & _ & _ & Hn).
  exists w', d'. auto.
Defined.

(** The counterexample of C3: a plain step on the running SPU thread, whose
    program counter is the pending step-over address, empties the
    breakpoint set. *)
Lemma plain_step_running_retires :
  dbg_paused sample_flag_bit (cpu_thread.state (deref spu_world 2%N)) = false
  /\ fst (get_cpu sample_flag_bit spu_world spu_frame) = Some 2%N
  /\ exists w' d',
       DoStep sample_flag_bit 2 false spu_world spu_frame = Some (w', d')
       /\ breakpoint_handler.contains 4100 (m_breakpoint_handler spu_frame)
          = true
       /\ breakpoint_handler.contains 4100 (m_breakpoint_handler d') = false
       /\ m_breakpoint_handler d' <> m_breakpoint_handler spu_frame.
Proof.
  split; [reflexivity|]. split; [reflexivity|].
  eexists _, _. split; [vm_compute; reflexivity|].
  split; [reflexivity|]. split; [reflexivity|].
  intros H. apply (f_equal (breakpoint_handler.contains 4100)) in H.
  vm_compute in H. discriminate H.
Qed.

Lemma DoUpdate_retirement_reached :
  let d' := DoUpdate sample_flag_bit paused_world reached_frame in
  m_breakpoint_handler d'
  = breakpoint_handler.remove 4096 (m_breakpoint_handler reached_frame)
  /\ breakpoint_handler.contains 4096 (m_breakpoint_handler d') = false
  /\ m_last_step_over_breakpoint d' = umax.
Proof.
  apply (proj1 (DoUpdate_retirement sample_flag_bit paused_world
                  reached_frame) 1%N); [reflexivity | discriminate | reflexivity].
Defined.

Lemma get_cpu_resolution_gone :
  fst (get_cpu sample_flag_bit gone_world fresh_frame) = None.
Proof.
  apply (proj1 (proj2 (proj1 (get_cpu_resolution sample_flag_bit gone_world
                                fresh_frame) 1%N eq_refl)));
    [reflexivity | right; reflexivity].
Defined.

Lemma UpdateUnitList_refresh_paused :
  exists d',
    UpdateUnitList sample_flag_bit 1 emu_paused_world fresh_frame = Some d'
    /\ settled emu_paused_world d'
    /\ QComboBox.items (m_choice_units d') = visible_list emu_paused_world.
Proof.
  apply (proj2 (proj2 (UpdateUnitList_refresh sample_flag_bit 0
                         emu_paused_world fresh_frame))).
  right. right. discriminate.
Defined.

(** The counterexample of C6: the lifecycle state went from running to
    paused, the refresh runs, and the list it shows is the list shown
    before. *)
Lemma refresh_same_list :
  tallies_differ emu_paused_world fresh_frame
  /\ exists d',
       UpdateUnitList sample_flag_bit 1 emu_paused_world fresh_frame = Some d'
       /\ m_choice_units d' = m_choice_units fresh_frame.
Proof.
  split; [right; right; discriminate|].
  eexists. split; [vm_compute; reflexivity|]. reflexivity.
Qed.

Lemma reselect_same_unit_ppu :
  OnSelectUnit sample_flag_bit 2 paused_world fresh_frame = Some fresh_frame.
Proof.
  apply (reselect_same_unit sample_flag_bit 2 paused_world fresh_frame
           (Some 1%N)); [reflexivity | reflexivity | discriminate].
Defined.

Lemma EvaluateExpression_text_1004 :
  fst (EvaluateExpression sample_flag_bit sample_toULong16 paused_world
         fresh_frame "1004") = 4100
  /\ fst (EvaluateExpression sample_flag_bit sample_toULong16 paused_world
            fresh_frame "0x1004") = 4100.
Proof.
  apply (proj1 (proj2 (EvaluateExpression_text sample_flag_bit
                         sample_toULong16 paused_world fresh_frame))).
  reflexivity.
Defined.

Lemma next_instruction_key_unmapped :
  exists d',
    keyPressEvent sample_flag_bit no_targets no_targets sample_toULong16 2
      press_N paused_world fresh_frame = Some (paused_world, d')
    /\ emitted d' = emitted fresh_frame.
Proof.
  destruct (next_instruction_key sample_flag_bit no_targets no_targets
              sample_toULong16 2 press_N paused_world fresh_frame 1%N
              eq_refl eq_refl eq_refl eq_refl) as (d' & E & H & _).
  exists d'. split; [exact E|]. apply H; reflexivity.
Defined.

Lemma EvaluateExpression_no_target_zz :
  fst (EvaluateExpression sample_flag_bit sample_toULong16 paused_world
         empty_frame "zz") = 0
  /\ emitted (ShowGotoAddressDialog sample_flag_bit sample_toULong16
                paused_world empty_frame (Some "zz"%string))
     = emitted empty_frame ++ [ShowAddress 0 None].
Proof.
  apply (EvaluateExpression_no_target sample_flag_bit sample_toULong16
           paused_world empty_frame "zz"); reflexivity.
Defined.

(** * Further properties of the code *)

Section Resolved.

Variable flag_bit : cpu_flag.t -> N.
Variable w : world.

Lemma frame_ext d e :
  m_cpu d = m_cpu e -> m_rsx d = m_rsx e -> m_disasm d = m_disasm e ->
  m_last_pc d = m_last_pc e -> m_last_query_state d = m_last_query_state e ->
  m_threads_created d = m_threads_created e ->
  m_threads_deleted d = m_threads_deleted e ->
  m_emu_state d = m_emu_state e ->
  m_last_step_over_breakpoint d = m_last_step_over_breakpoint e ->
  m_choice_units d = m_choice_units e ->
  m_breakpoint_handler d = m_breakpoint_handler e ->
  emitted d = emitted e -> d = e.
Proof. destruct d, e; simpl; intros; subst; reflexivity. Qed.

(** [get_cpu] reads [m_cpu] and [m_rsx] only. *)
Lemma get_cpu_same_selection d x :
  m_cpu x = m_cpu d -> m_rsx x = m_rsx d ->
  fst (get_cpu flag_bit w x) = fst (get_cpu flag_bit w d)
  /\ m_rsx (snd (get_cpu flag_bit w x)) = m_rsx (snd (get_cpu flag_bit w d)).
Proof.
  intros Hc Hr. unfold get_cpu. rewrite Hc.
  destruct (match m_cpu d with Some _ => _ | None => _ end); [simpl; auto|].
  rewrite Hr. cbv zeta.
  destruct (bool_decide (fxo_rsx w <> m_rsx d)); [simpl; auto|].
  rewrite Hr. destruct (m_rsx d) as [r|] eqn:Ed; [|simpl; split; congruence].
  destruct (negb (cpu_thread.ctrl (deref w r))); simpl; split; congruence.
Qed.

Lemma resolved_get_cpu d : resolved flag_bit w (snd (get_cpu flag_bit w d)).
Proof. unfold resolved. rewrite get_cpu_again. reflexivity. Qed.

Lemma resolved_transfer d x :
  resolved flag_bit w d -> m_cpu x = m_cpu d -> m_rsx x = m_rsx d ->
  resolved flag_bit w x
  /\ fst (get_cpu flag_bit w x) = fst (get_cpu flag_bit w d).
Proof.
  intros Hd Hc Hr.
  destruct (get_cpu_same_selection d x Hc Hr) as [Hf Hs].
  split; [|exact Hf]. unfold resolved in *. rewrite Hd in Hs.
  destruct (get_cpu_ui flag_bit w x). apply frame_ext; try assumption.
  - congruence.
  - apply get_cpu_emitted.
Qed.

Lemma resolved_eq d :
  resolved flag_bit w d ->
  get_cpu flag_bit w d = (fst (get_cpu flag_bit w d), d).
Proof.
  unfold resolved. intros H. rewrite <- H at 3.
  destruct (get_cpu flag_bit w d). reflexivity.
Qed.

End Resolved.

Lemma kept_refl d : kept d d.
Proof. split; reflexivity. Qed.

Lemma kept_trans d1 d2 d3 : kept d1 d2 -> kept d2 d3 -> kept d1 d3.
Proof. intros [] []. split; congruence. Qed.

Lemma kept_emit c d : kept d (emit c d).
Proof. split; reflexivity. Qed.

Lemma kept_emits l d : kept d (emits l d).
Proof.
  revert d. induction l as [|c l IH]; intros d; [apply kept_refl|].
  eapply kept_trans; [apply (kept_emit c)|apply IH].
Qed.

Section Poll.

Variable flag_bit : cpu_flag.t -> N.
Variable w : world.

Lemma resolved_kept d x :
  resolved flag_bit w d -> kept d x ->
  resolved flag_bit w x
  /\ fst (get_cpu flag_bit w x) = fst (get_cpu flag_bit w d).
Proof. intros Hd []. apply resolved_transfer; assumption. Qed.

Lemma ShowPC_kept d : resolved flag_bit w d -> kept d (ShowPC flag_bit w d).
Proof.
  intros H. unfold ShowPC. rewrite (resolved_eq _ _ _ H). apply kept_emit.
Qed.

Lemma WritePanels_kept d :
  resolved flag_bit w d -> kept d (WritePanels flag_bit w d).
Proof.
  intros H. unfold WritePanels. rewrite (resolved_eq _ _ _ H).
  destruct (fst _); apply kept_emits.
Qed.

Lemma EnableButtons_kept e d :
  resolved flag_bit w d -> kept d (EnableButtons flag_bit w e d).
Proof.
  intros H. unfold EnableButtons. rewrite (resolved_eq _ _ _ H).
  apply kept_emits.
Qed.

Lemma DoUpdate_kept d : resolved flag_bit w d -> kept d (DoUpdate flag_bit w d).
Proof.
  intros H. unfold DoUpdate. rewrite (resolved_eq _ _ _ H).
  match goal with
  | |- kept d (WritePanels _ _ (ShowPC _ _ ?x)) => set (d2 := x)
  end.
  assert (H2 : kept d d2).
  { unfold d2. destruct (fst _); [|apply kept_refl].
    destruct (_ && _); [|apply kept_refl]. split; reflexivity. }
  clearbody d2.
  destruct (resolved_kept d d2 H H2) as [R2 _].
  pose proof (ShowPC_kept d2 R2) as H3.
  destruct (resolved_kept d2 _ R2 H3) as [R3 _].
  pose proof (WritePanels_kept _ R3) as H4.
  eauto using kept_trans.
Qed.

Lemma settled_kept d x : settled w d -> kept d x -> settled w x.
Proof. unfold settled. intros (A & B & C) []. repeat split; congruence. Qed.

Lemma settled_ui d x : settled w d -> ui_step d x -> settled w x.
Proof. unfold settled. intros (A & B & C) []. repeat split; congruence. Qed.

(** A refresh leaves the caches equal to the live values. *)
Lemma UpdateUnitList_settles n d d1 :
  UpdateUnitList flag_bit n w d = Some d1 -> settled w d1.
Proof.
  unfold UpdateUnitList, UpdateUnitList_with.
  destruct (_ || _) eqn:G.
  - match goal with
    | |- context [OnSelectUnit flag_bit n w ?x] =>
        destruct (OnSelectUnit flag_bit n w x) as [d2|] eqn:E; [|discriminate];
        assert (Hs : settled w x) by (repeat split)
    end.
    intros [= <-].
    destruct (OnSelectUnit_keeps_list flag_bit w _ _ _ E Hs) as [Hs2 _].
    eapply settled_ui; [exact Hs2 | apply emit_ui].
  - intros [= <-].
    apply orb_false_iff in G as [G G3]. apply orb_false_iff in G as [G1 G2].
    apply negb_false_iff, Z.eqb_eq in G1, G2.
    apply bool_decide_eq_false in G3. apply dec_stable in G3.
    repeat split; assumption.
Qed.

(** On a settled frame the poll does not look at the list. *)
Lemma UpdateUI_settled_eq n d :
  settled w d ->
  UpdateUI flag_bit (S n) w d
  = UpdateUI_with flag_bit (fun _ x => Some x) w d.
Proof.
  intros Hs. rewrite UpdateUI_S. unfold UpdateUI_with, UpdateUnitList_with.
  destruct (_ || _) eqn:G; [|reflexivity].
  apply tallies_guard in G. destruct (settled_not_differ _ _ Hs G).
Qed.

(** A settled, resolved frame whose cache holds the current program counter
    and image is a fixed point of the poll. *)
Lemma UpdateUI_fixed n d :
  settled w d -> resolved flag_bit w d -> poll_unchanged flag_bit w d ->
  UpdateUI flag_bit (S n) w d = Some d.
Proof.
  intros Hs Hr Hu. rewrite (UpdateUI_settled_eq n d Hs).
  unfold UpdateUI_with, poll_unchanged in *.
  rewrite (resolved_eq _ _ _ Hr).
  destruct (fst (get_cpu flag_bit w d)) as [p|]; destruct Hu as [-> ->].
  - rewrite Z.eqb_refl, (bool_decide_eq_true_2 _ eq_refl). reflexivity.
  - rewrite Z.eqb_refl, (bool_decide_eq_true_2 _ eq_refl). reflexivity.
Qed.

Lemma UpdateUI_result_fixed n d d' :
  UpdateUI flag_bit n w d = Some d' ->
  settled w d' /\ resolved flag_bit w d' /\ poll_unchanged flag_bit w d'.
Proof.
  destruct n as [|n]; [discriminate|]. rewrite UpdateUI_S.
  change (UpdateUnitList_with (OnSelectUnit_with flag_bit (UpdateUI flag_bit n)))
    with (UpdateUnitList flag_bit n).
  unfold UpdateUI_with.
  destruct (UpdateUnitList flag_bit n w d) as [d1|] eqn:E1; [|discriminate].
  pose proof (UpdateUnitList_settles _ _ _ E1) as Hs1.
  pose proof (resolved_get_cpu flag_bit w d1) as R2.
  pose proof (get_cpu_again flag_bit w d1) as A2.
  pose proof (get_cpu_ui flag_bit w d1) as U2.
  destruct (get_cpu flag_bit w d1) as [cpu d2]. simpl in R2, A2, U2.
  assert (F2 : fst (get_cpu flag_bit w d2) = cpu) by (rewrite A2; reflexivity).
  pose proof (settled_ui _ _ Hs1 U2) as Hs2.
  assert (Hupd : forall pc q,
            let x := DoUpdate flag_bit w (with_last pc q d2) in
            settled w x /\ resolved flag_bit w x
            /\ fst (get_cpu flag_bit w x) = cpu
            /\ m_last_pc x = pc /\ m_last_query_state x = q).
  { intros pc q x.
    assert (K0 : resolved flag_bit w (with_last pc q d2)
                 /\ fst (get_cpu flag_bit w (with_last pc q d2))
                    = fst (get_cpu flag_bit w d2)).
    { apply (resolved_transfer flag_bit w d2); auto. }
    destruct K0 as [R0 F0].
    pose proof (DoUpdate_kept _ R0) as K. fold x in K.
    destruct (resolved_kept _ _ R0 K) as [Rx Fx].
    split; [|split; [exact Rx|split; [congruence|]]].
    - destruct K. destruct Hs2 as (A & B & C). repeat split; simpl in *;
        congruence.
    - destruct K. simpl in *. auto. }
  intros [= <-].
  destruct cpu as [p|].
  - destruct (negb (m_last_pc d2 =? cpu_thread.pc (deref w p))) eqn:C1;
      [|destruct (negb (bool_decide (m_last_query_state d2
                                     = cpu_thread.image (deref w p)))) eqn:C2];
      cbn [orb].
    + destruct (Hupd (cpu_thread.pc (deref w p))
                  (cpu_thread.image (deref w p))) as (S & R & F & P & Q).
      set (x := DoUpdate _ _ _) in *.
      assert (K : forall l, kept x (emits l x)) by (intros; apply kept_emits).
      destruct (bs_and _ _);
        match goal with
        | |- settled w ?y /\ _ =>
            assert (Ky : kept x y) by (apply (K [_; _; _]));
            destruct (resolved_kept _ _ R Ky) as [Re Fe];
            pose proof (settled_kept _ _ S Ky) as Se;
            destruct Ky; unfold poll_unchanged
        end;
        (split; [exact Se|]); (split; [exact Re|]); rewrite Fe, F;
        split; congruence.
    + destruct (Hupd (cpu_thread.pc (deref w p))
                  (cpu_thread.image (deref w p))) as (S & R & F & P & Q).
      set (x := DoUpdate _ _ _) in *.
      assert (K : forall l, kept x (emits l x)) by (intros; apply kept_emits).
      destruct (bs_and _ _);
        match goal with
        | |- settled w ?y /\ _ =>
            assert (Ky : kept x y) by (apply (K [_; _; _]));
            destruct (resolved_kept _ _ R Ky) as [Re Fe];
            pose proof (settled_kept _ _ S Ky) as Se;
            destruct Ky; unfold poll_unchanged
        end;
        (split; [exact Se|]); (split; [exact Re|]); rewrite Fe, F;
        split; congruence.
    + apply negb_false_iff in C1, C2. apply Z.eqb_eq in C1.
      apply bool_decide_eq_true in C2.
      split; [exact Hs2|]. split; [exact R2|].
      unfold poll_unchanged. rewrite F2. auto.
  - destruct (negb (m_last_pc d2 =? umax)) eqn:C1;
      [|destruct (negb (bool_decide (m_last_query_state d2 = []))) eqn:C2];
      cbn [orb].
    + destruct (Hupd umax []) as (S & R & F & P & Q).
      unfold poll_unchanged. rewrite F. auto.
    + destruct (Hupd umax []) as (S & R & F & P & Q).
      unfold poll_unchanged. rewrite F. auto.
    + apply negb_false_iff in C1, C2. apply Z.eqb_eq in C1.
      apply bool_decide_eq_true in C2.
      split; [exact Hs2|]. split; [exact R2|].
      unfold poll_unchanged. rewrite F2. auto.
Qed.

End Poll.

Section PollProperties.

Variable flag_bit : cpu_flag.t -> N.
Variable w : world.

(** X1 : the mutual recursion of [UpdateUI], [UpdateUnitList] and
    [OnSelectUnit] is bounded: two nested levels always return, and deeper
    nesting gives the same frame. *)
Theorem poll_terminates n d :
  exists d' d1 d2,
    UpdateUI flag_bit (S (S n)) w d = Some d'
    /\ UpdateUI flag_bit 2 w d = Some d'
    /\ UpdateUnitList flag_bit (S n) w d = Some d1
    /\ UpdateUnitList flag_bit 1 w d = Some d1
    /\ OnSelectUnit flag_bit (S (S n)) w d = Some d2
    /\ OnSelectUnit flag_bit 2 w d = Some d2.
Proof.
  destruct (UpdateUI_total flag_bit w n d) as [d' E].
  destruct (UpdateUnitList_total flag_bit w n d) as [d1 E1].
  destruct (OnSelectUnit_total flag_bit w n d) as [d2 E2].
  exists d', d1, d2. repeat split; try assumption.
  - rewrite <- E. symmetry. apply UpdateUI_depth.
  - rewrite <- E1. symmetry. apply UpdateUnitList_depth.
  - rewrite <- E2. unfold OnSelectUnit.
    destruct (OnSelectUnit_with_cases flag_bit w (fun _ _ => True))
      with (d := d) as [(d0 & _ & E0)|(d8 & _ & E8)]; auto.
    + rewrite !E0. reflexivity.
    + rewrite !E8. symmetry. apply UpdateUI_depth.
Qed.

(** X2 : a refresh leaves the cached counters and lifecycle state equal to
    the live ones, so a second refresh in the same emulator state returns
    the frame as it is. *)
Theorem refresh_twice n m d d1 :
  UpdateUnitList flag_bit n w d = Some d1 ->
  settled w d1 /\ UpdateUnitList flag_bit m w d1 = Some d1.
Proof.
  intros E. pose proof (UpdateUnitList_settles _ _ _ _ _ E) as Hs.
  split; [exact Hs|]. unfold UpdateUnitList, UpdateUnitList_with.
  destruct (_ || _) eqn:G; [|reflexivity].
  apply tallies_guard in G. destruct (settled_not_differ _ _ Hs G).
Qed.

(** X3 : polling twice in a row, the emulator unchanged in between: the
    second [UpdateUI] returns the frame of the first, no call emitted, no
    field moved. *)
Theorem poll_twice n m d d' :
  UpdateUI flag_bit n w d = Some d' ->
  UpdateUI flag_bit (S m) w d' = Some d'.
Proof.
  intros E.
  destruct (UpdateUI_result_fixed _ _ _ _ _ E) as (Hs & Hr & Hu).
  apply UpdateUI_fixed; assumption.
Qed.

Lemma DoUpdate_emits d :
  (length (emitted d) < length (emitted (DoUpdate flag_bit w d)))%nat.
Proof.
  unfold DoUpdate.
  destruct (get_cpu_split flag_bit w d) as (cpu & d1 & -> & H1).
  match goal with
  | |- context [WritePanels _ _ (ShowPC _ _ ?x)] => set (d2 := x)
  end.
  assert (H2 : (length (emitted d1) <= length (emitted d2))%nat).
  { unfold d2. destruct cpu; [|lia]. destruct (_ && _); [|lia].
    simpl. rewrite length_app. lia. }
  clearbody d2.
  destruct (ui_emitted _ _ (WritePanels_ui flag_bit w (ShowPC flag_bit w d2)))
    as [l4 ->].
  unfold ShowPC. destruct (get_cpu_split flag_bit w d2) as (c & d3 & -> & H3).
  simpl. destruct (ui_emitted _ _ H1) as [l1 E1].
  destruct (ui_emitted _ _ H3) as [l3 E3].
  rewrite E1 in H2. rewrite E3, !length_app in *. simpl. lia.
Qed.

(** X4 : the poll talks to the widgets exactly when something changed.  On
    a frame whose caches are the live counters, [UpdateUI] emits no call if
    and only if the cached program counter and image are those of the
    resolved thread (or, with no thread, the cache is already cleared). *)
Theorem poll_silent_iff_unchanged n d :
  settled w d ->
  exists d',
    UpdateUI flag_bit (S n) w d = Some d'
    /\ (poll_unchanged flag_bit w d <-> emitted d' = emitted d).
Proof.
  intros Hs. rewrite (UpdateUI_settled_eq _ _ n d Hs).
  unfold UpdateUI_with, poll_unchanged.
  pose proof (get_cpu_emitted flag_bit w d) as He.
  pose proof (get_cpu_ui flag_bit w d) as Hu.
  destruct (get_cpu flag_bit w d) as [cpu d2]. simpl in He, Hu |- *.
  destruct Hu as [_ _ _ Hp Hq _ _ _ _ _ _ _]. rewrite <- Hp, <- Hq.
  eexists. split; [reflexivity|].
  assert (Hgrow : forall pc q (f : debugger_frame -> debugger_frame),
            (forall x, exists l, emitted (f x) = emitted x ++ l) ->
            emitted (f (DoUpdate flag_bit w (with_last pc q d2)))
            <> emitted d).
  { intros pc q f Hf Heq.
    pose proof (DoUpdate_emits (with_last pc q d2)) as Hlt.
    destruct (Hf (DoUpdate flag_bit w (with_last pc q d2))) as [l El].
    rewrite El in Heq. apply (f_equal (@length call)) in Heq.
    rewrite length_app in Heq. simpl in Hlt. rewrite He in Hlt. lia. }
  assert (Hid : forall x : debugger_frame, exists l, emitted x = emitted x ++ l).
  { intros x. exists []. symmetry. apply app_nil_r. }
  assert (Hem : forall l0 x, exists l, emitted (emits l0 x) = emitted x ++ l).
  { intros l0 x. apply (ui_emitted _ _ (emits_ui l0 x)). }
  destruct cpu as [p|].
  - destruct (Z.eqb_spec (m_last_pc d2) (cpu_thread.pc (deref w p))) as [E1|E1];
      [destruct (decide (m_last_query_state d2
                         = cpu_thread.image (deref w p))) as [E2|E2]|].
    + rewrite (bool_decide_eq_true_2 _ E2). simpl. tauto.
    + rewrite (bool_decide_eq_false_2 _ E2). simpl.
      split; [tauto|]. intros Heq. exfalso.
      destruct (bs_and _ _);
        [apply (Hgrow _ _ (emits [_; _; _]) (Hem _) Heq)
        |apply (Hgrow _ _ (emits [_; _; _]) (Hem _) Heq)].
    + simpl. split; [tauto|]. intros Heq. exfalso.
      destruct (bs_and _ _);
        [apply (Hgrow _ _ (emits [_; _; _]) (Hem _) Heq)
        |apply (Hgrow _ _ (emits [_; _; _]) (Hem _) Heq)].
  - destruct (Z.eqb_spec (m_last_pc d2) umax) as [E1|E1];
      [destruct (decide (m_last_query_state d2 = [])) as [E2|E2]|].
    + rewrite (bool_decide_eq_true_2 _ E2). simpl. tauto.
    + rewrite (bool_decide_eq_false_2 _ E2). simpl.
      split; [tauto|]. intros Heq. exfalso.
      apply (Hgrow _ _ (fun x => x) Hid Heq).
    + simpl. split; [tauto|]. intros Heq. exfalso.
      apply (Hgrow _ _ (fun x => x) Hid Heq).
Qed.

End PollProperties.

Section PollInvariants.

Variable flag_bit : cpu_flag.t -> N.
Variable w : world.

Lemma OnSelectUnit_retired n d d' :
  OnSelectUnit flag_bit n w d = Some d' -> retired d d'.
Proof.
  apply (OnSelectUnit_Rel flag_bit w retired (retired_trans) (retired_ui));
    intros; try (left; split; reflexivity).
  right. auto.
Qed.

Lemma retired_shrinks d d' :
  retired d d' ->
  m_breakpoint_handler d' ⊆ m_breakpoint_handler d
  /\ (m_last_step_over_breakpoint d' = m_last_step_over_breakpoint d
      \/ m_last_step_over_breakpoint d' = umax).
Proof.
  intros [[-> ->]|(_ & -> & ->)]; split; auto.
  unfold breakpoint_handler.remove. apply subseteq_difference_l. reflexivity.
Qed.

(** X5 : polling and selecting never add a breakpoint and never invent a
    pending step-over address: after [UpdateUI] or [OnSelectUnit] the
    breakpoint set is included in the one before, and the marker is the old
    one or none. *)
Theorem poll_never_adds_breakpoint n d d' :
  UpdateUI flag_bit n w d = Some d' \/ OnSelectUnit flag_bit n w d = Some d' ->
  m_breakpoint_handler d' ⊆ m_breakpoint_handler d
  /\ (m_last_step_over_breakpoint d' = m_last_step_over_breakpoint d
      \/ m_last_step_over_breakpoint d' = umax).
Proof.
  intros [E|E]; apply retired_shrinks.
  - eapply UpdateUI_retired, E.
  - eapply OnSelectUnit_retired, E.
Qed.

(** X6 : [get_cpu] writes nothing but [m_rsx], which it can only clear; it
    emits no call; and it is idempotent: resolving again returns the same
    thread and the same frame. *)
Theorem get_cpu_footprint d :
  let d' := snd (get_cpu flag_bit w d) in
  ui_step d d'
  /\ emitted d' = emitted d
  /\ get_cpu flag_bit w d' = (fst (get_cpu flag_bit w d), d').
Proof.
  simpl. split; [apply get_cpu_ui|]. split; [apply get_cpu_emitted|].
  rewrite get_cpu_again. destruct (get_cpu flag_bit w d). reflexivity.
Qed.

End PollInvariants.

Section Exclusive.

Variable flag_bit : cpu_flag.t -> N.
Variable op_branch_targets_spu : Z -> Z -> Z * Z.
Variable op_branch_targets_ppu : Z -> Z -> Z * Z.
Variable toULong16 : string -> option Z.

Lemma exclusive_ui d d' : ui_step d d' -> exclusive d -> exclusive d'.
Proof.
  intros [] [H|H]; [left|right]; try congruence.
  destruct ui_rsx0; congruence.
Qed.

Lemma ShowGotoAddressDialog_ui w d answer :
  ui_step d (ShowGotoAddressDialog flag_bit toULong16 w d answer).
Proof.
  unfold ShowGotoAddressDialog.
  destruct (get_cpu_split flag_bit w d) as (c1 & d1 & -> & H1).
  destruct (get_cpu_split flag_bit w d1) as (c2 & d2 & -> & H2).
  assert (H12 : ui_step d d2) by (eapply ui_step_trans; eassumption).
  destruct answer as [text|]; [|exact H12].
  unfold EvaluateExpression.
  destruct (toULong16 _).
  - eapply ui_step_trans; [exact H12 | apply emit_ui].
  - destruct (get_cpu_split flag_bit w d2) as (c3 & d3 & -> & H3).
    destruct c3; (eapply ui_step_trans; [|apply emit_ui]);
      eapply ui_step_trans; eassumption.
Qed.

(** X7 : every entry point of the frame keeps the selection exclusive (a
    CPU thread or the RSX pointer, never both): the poll, a selection, a
    step, the run button, the address dialog and a key press. *)
Theorem exclusive_preserved depth w d :
  exclusive d ->
  (forall d', UpdateUI flag_bit depth w d = Some d' -> exclusive d')
  /\ (forall d', OnSelectUnit flag_bit depth w d = Some d' -> exclusive d')
  /\ (forall stepOver w' d',
        DoStep flag_bit depth stepOver w d = Some (w', d') -> exclusive d')
  /\ (forall w' d',
        btn_run_clicked flag_bit depth w d = Some (w', d') -> exclusive d')
  /\ (forall answer,
        exclusive (ShowGotoAddressDialog flag_bit toULong16 w d answer))
  /\ (forall ev w' d',
        keyPressEvent flag_bit op_branch_targets_spu op_branch_targets_ppu
          toULong16 depth ev w d = Some (w', d') -> exclusive d').
Proof.
  intros Hx. repeat split.
  - intros d' E. eapply UpdateUI_exclusive; eassumption.
  - intros d' E. eapply OnSelectUnit_exclusive; eassumption.
  - intros s w' d' E. eapply DoStep_exclusive; eassumption.
  - intros w' d' E. eapply btn_run_clicked_exclusive; eassumption.
  - intros answer. eapply exclusive_ui; [apply ShowGotoAddressDialog_ui|exact Hx].
  - intros ev w' d'. unfold keyPressEvent.
    destruct (negb (isActiveWindow ev)); [intros [= _ <-]; exact Hx|].
    pose proof (get_cpu_exclusive flag_bit w d Hx) as H1.
    destruct (get_cpu flag_bit w d) as [cpu d1]. simpl in H1.
    assert (Hret : Some (w, d1) = Some (w', d') -> exclusive d')
      by (intros [= _ <-]; exact H1).
    destruct (key ev) eqn:Ek; try exact Hret;
      (destruct cpu as [p|]; [|exact Hret]);
      (destruct (ControlModifier ev); [try exact Hret|]); try exact Hret.
    + intros [= _ <-].
      eapply exclusive_ui; [apply ShowGotoAddressDialog_ui|exact H1].
    + destruct (cpu_thread.id_type (deref w p) =? 2).
      { destruct (find_last_not_of_max _); intros [= _ <-];
          (eapply exclusive_ui; [|exact H1]);
          repeat (eapply ui_step_trans; [|apply emit_ui]); apply ui_step_refl. }
      destruct (cpu_thread.id_type (deref w p) =? 1).
      { destruct (vm_check_addr w _).
        - destruct (vm_try_access w _);
            destruct (find_last_not_of_max _); intros [= _ <-];
            (eapply exclusive_ui; [|exact H1]);
            repeat (eapply ui_step_trans; [|apply emit_ui]);
            apply ui_step_refl.
        - destruct (find_last_not_of_max _); intros [= _ <-];
            (eapply exclusive_ui; [|exact H1]);
            repeat (eapply ui_step_trans; [|apply emit_ui]);
            apply ui_step_refl. }
      destruct (find_last_not_of_max _); intros [= _ <-];
        (eapply exclusive_ui; [|exact H1]);
        repeat (eapply ui_step_trans; [|apply emit_ui]); apply ui_step_refl.
    + intros E. eapply DoStep_exclusive; eassumption.
    + intros E. eapply DoStep_exclusive; eassumption.
Qed.

End Exclusive.

Section StepHelpers.

Variable flag_bit : cpu_flag.t -> N.

Lemma same_target_trans d1 d2 d3 :
  same_target d1 d2 -> same_target d2 d3 -> same_target d1 d3.
Proof.
  intros [] []. split; try congruence.
  destruct st_rsx1 as [->|]; auto.
Qed.

Lemma same_target_ui d d' : ui_step d d' -> same_target d d'.
Proof. intros []. split; assumption. Qed.

Lemma UpdateUI_settled_target w n d d' :
  settled w d -> UpdateUI flag_bit (S n) w d = Some d' -> same_target d d'.
Proof.
  intros Hs. rewrite (UpdateUI_settled_eq _ _ n d Hs).
  apply (UpdateUI_with_Rel flag_bit w same_target same_target_trans
           same_target_ui).
  - intros. split; auto.
  - intros. split; auto.
  - intros d0 d1 [= <-]. split; auto.
Qed.



(** The emulator after the flags of [p] were rewritten and [p] notified. *)
Lemma stepped_world {R} (f : bs_t -> bs_t * R) w p c :
  heap w !! p = Some c ->
  let w' := notify p (fst (atomic_op f p w)) in
  heap w' !! p
  = Some (cpu_thread.set_state (fun _ => fst (f (cpu_thread.state c))) c)
  /\ (forall q, q <> p -> heap w' !! q = heap w !! q)
  /\ notified w' = notified w ++ [p]
  /\ (forall d, settled w' d <-> settled w d).
Proof.
  intros H. unfold atomic_op, notify. simpl.
  rewrite (deref_lookup _ _ _ H). split; [|split; [|split]].
  - rewrite lookup_alter_eq, H. reflexivity.
  - intros q Hq. apply lookup_alter_ne. congruence.
  - reflexivity.
  - intros d. unfold settled. simpl. tauto.
Qed.


End StepHelpers.

Section StepProperties.

Variable flag_bit : cpu_flag.t -> N.

(** X8 : a step-over on anything but a PPU thread (an SPU thread, the RSX
    thread, or no thread at all) is a plain step. *)
Theorem step_over_degenerates depth w d :
  (forall p, fst (get_cpu flag_bit w d) = Some p ->
             cpu_thread.id_type (deref w p) <> 1) ->
  DoStep flag_bit depth true w d = DoStep flag_bit depth false w d.
Proof.
  intros H. unfold DoStep.
  destruct (get_cpu flag_bit w d) as [cpu d1]. simpl in H.
  destruct cpu as [p|]; [|reflexivity].
  specialize (H p eq_refl). apply Z.eqb_neq in H. rewrite H. reflexivity.
Qed.

Hypothesis flag_bit_inj : forall f g, flag_bit f = flag_bit g -> f = g.

(** X9 : a step-over on a paused PPU thread clears [dbg_pause] and
    [dbg_global_pause], leaves [dbg_step] as it was (the thread is to run
    until the injected breakpoint), notifies the thread once and touches no
    other thread. *)
Theorem step_over_flags n w d p c :
  fst (get_cpu flag_bit w d) = Some p ->
  heap w !! p = Some c ->
  cpu_thread.id_type c = 1 ->
  dbg_paused flag_bit (cpu_thread.state c) = true ->
  exists w' d',
    DoStep flag_bit (S (S n)) true w d = Some (w', d')
    /\ let s := cpu_thread.state c in
       let s' := cpu_thread.state (deref w' p) in
       s' = bs_sub s (s_pause_flags flag_bit)
       /\ dbg_paused flag_bit s' = false
       /\ is_set flag_bit s' cpu_flag.dbg_step
          = is_set flag_bit s cpu_flag.dbg_step
       /\ notified w' = notified w ++ [p]
       /\ forall q, q <> p -> heap w' !! q = heap w !! q.
Proof.
  intros Hc Hh Hid Hp. unfold DoStep.
  destruct (get_cpu flag_bit w d) as [cpu d1]. simpl in Hc. subst cpu.
  rewrite (deref_lookup _ _ _ Hh), bs_and_pause, Hp, Hid.
  cbn [andb Z.eqb Pos.eqb negb].
  match goal with
  | |- context [atomic_op ?f p w] =>
      pose proof (stepped_world f w p c Hh) as Hw;
      destruct (atomic_op f p w) as [w1 u]
  end.
  cbn [fst] in Hw. destruct Hw as (H1 & H2 & H3 & _).
  match goal with
  | |- context [UpdateUI flag_bit _ ?w' ?x] =>
      destruct (UpdateUI_total flag_bit w' n x) as [d3 E]
  end.
  rewrite E. eexists _, _. split; [reflexivity|].
  rewrite (deref_lookup _ _ _ H1). cbn [cpu_thread.state cpu_thread.set_state fst].
  split; [reflexivity|]. split; [apply paused_sub_pause|].
  split; [|split; [exact H3 | exact H2]].
  rewrite is_set_sub, is_set_pause_flags.
  rewrite !bool_decide_eq_false_2
    by (intros H; apply flag_bit_inj in H; discriminate).
  apply andb_true_r.
Qed.






End StepProperties.

Section Toggle.

Variable flag_bit : cpu_flag.t -> N.



Hypothesis flag_bit_inj : forall f g, flag_bit f = flag_bit g -> f = g.



End Toggle.

(** ** Keys *)

Lemma land_mask_bounds x m k :
  0 <= k -> Z.land m (Z.ones k) = m -> Z.land m 3 = 0 ->
  0 <= Z.land x m < 2 ^ k /\ Z.land x m mod 4 = 0.
Proof.
  intros Hk Hm H3. split.
  - assert (E : Z.land x m = Z.land x m mod 2 ^ k).
    { rewrite <- Z.land_ones by exact Hk.
      rewrite <- Z.land_assoc, Hm. reflexivity. }
    rewrite E. apply Z.mod_pos_bound. apply Z.pow_pos_nonneg; lia.
  - change 4 with (2 ^ 2). rewrite <- Z.land_ones by lia.
    change (Z.ones 2) with 3. rewrite <- Z.land_assoc, H3. apply Z.land_0_r.
Qed.

(** X14 : the address a key press works on is a 4-aligned [u32]; for an SPU
    thread it lies in the 256 KiB local store (at most 0x3fffc), whatever
    the row and the list start are. *)
Theorem marked_pc_bounds ev c :
  0 <= marked_pc ev c < 2 ^ 32
  /\ marked_pc ev c mod 4 = 0
  /\ (cpu_thread.id_type c = 2 -> marked_pc ev c <= 262140).
Proof.
  unfold marked_pc, address_limits.
  destruct (Z.eqb_spec (cpu_thread.id_type c) 2) as [E|E].
  - match goal with
    | |- context [Z.land ?x 262140] =>
        destruct (land_mask_bounds x 262140 18) as [Hb Hm];
        [lia | reflexivity | reflexivity |]
    end.
    change (2 ^ 18) with 262144 in Hb. change (2 ^ 32) with 4294967296.
    split; [lia|]. split; [exact Hm|]. intros _.
    match goal with
    | |- ?r <= _ =>
        pose proof (Z.div_mod r 4 ltac:(lia)) as Hd; rewrite Hm in Hd; lia
    end.
  - match goal with
    | |- context [Z.land ?x (wrap32 (Z.lnot 3))] =>
        destruct (land_mask_bounds x (wrap32 (Z.lnot 3)) 32) as [Hb Hm];
        [lia | reflexivity | reflexivity |]
    end.
    split; [exact Hb|]. split; [exact Hm|]. intros H. contradiction.
Qed.

Section NextTarget.

Variable flag_bit : cpu_flag.t -> N.
Variable op_branch_targets_spu : Z -> Z -> Z * Z.
Variable op_branch_targets_ppu : Z -> Z -> Z * Z.
Variable toULong16 : string -> option Z.

(** X13 : the N key shows the predicted next instruction, the second entry
    of the predictor (the branch target) when there is one, else the first
    (the fall-through), shifted up by the marked row; the view is told
    after one read of the instruction. *)
Theorem next_instruction_target depth ev w d p t0 t1 read target :
  isActiveWindow ev = true ->
  key ev = Key_N ->
  ControlModifier ev = false ->
  fst (get_cpu flag_bit w d) = Some p ->
  let c := deref w p in
  let pc := marked_pc ev c in
  (cpu_thread.id_type c = 2
   /\ op_branch_targets_spu pc (spu_ref w p pc) = (t0, t1)
   /\ read = ls_ref p pc)
  \/ (cpu_thread.id_type c = 1
      /\ vm_check_addr w pc = true
      /\ (exists op, vm_try_access w pc = Some op
                     /\ op_branch_targets_ppu pc op = (t0, t1))
      /\ read = try_access pc) ->
  (t1 <> umax /\ target = t1) \/ (t1 = umax /\ t0 <> umax /\ target = t0) ->
  exists d',
    keyPressEvent flag_bit op_branch_targets_spu op_branch_targets_ppu
      toULong16 depth ev w d = Some (w, d')
    /\ emitted d'
       = emitted d
         ++ [read;
             ShowAddress (wrap32 (target - Z.max (currentRow ev) 0 * 4))
               (Some true)].
Proof.
  intros Ha Hk Hm Hc c pc Hsrc Ht. unfold keyPressEvent.
  rewrite Ha, Hk, Hm.
  pose proof (get_cpu_emitted flag_bit w d) as He.
  destruct (get_cpu flag_bit w d) as [cpu d1]. simpl in Hc, He. subst cpu.
  fold c. fold pc. cbn [negb].
  assert (Hf : find_last_not_of_max (t0, t1) = Some target).
  { unfold find_last_not_of_max. cbn [fst snd].
    destruct Ht as [[N1 ->]|(-> & N0 & ->)].
    - rewrite (proj2 (Z.eqb_neq _ _) N1). reflexivity.
    - rewrite Z.eqb_refl, (proj2 (Z.eqb_neq _ _) N0). reflexivity. }
  destruct Hsrc as [(Hid & Ho & ->)|(Hid & Hv & (op & Ho & Hb) & ->)].
  - rewrite Hid. cbn [Z.eqb Pos.eqb]. rewrite Ho, Hf.
    eexists. split; [reflexivity|]. simpl. rewrite He, <- app_assoc.
    reflexivity.
  - rewrite Hid. cbn [Z.eqb Pos.eqb]. rewrite Hv, Ho, Hb, Hf.
    eexists. split; [reflexivity|]. simpl. rewrite He, <- app_assoc.
    reflexivity.
Qed.

End NextTarget.

Lemma UpdateUnitList_with_rebuild O w d :
  tallies_differ w d ->
  UpdateUnitList_with O w d
  = match O w (with_choice_units (rebuilt_box w (m_choice_units d))
                 (with_counters (g_threads_created w) (g_threads_deleted w)
                    (emu_status w) d)) with
    | Some d2 => Some (emit choice_units_update d2)
    | None => None
    end.
Proof.
  intros H. apply tallies_guard in H. unfold UpdateUnitList_with.
  rewrite H. reflexivity.
Qed.

Lemma rebuilt_box_items w box :
  QComboBox.items (rebuilt_box w box) = visible_list w.
Proof.
  unfold rebuilt_box, visible_list. cbv zeta.
  destruct (fxo_rsx w) as [render|].
  - destruct (negb (bool_decide (emu_status w = stopped))
              && cpu_thread.ctrl (deref w render)).
    + match goal with
      | |- context [if ?b then QComboBox.setCurrentIndex _ _ else _] =>
          destruct b
      end; cbn [QComboBox.items QComboBox.setCurrentIndex QComboBox.addItem];
        rewrite !on_select_items;
        cbn [QComboBox.items QComboBox.addItem QComboBox.clear app];
        destruct (bool_decide (emu_status w = stopped));
        cbn [app]; rewrite ?map_app, <- ?app_assoc; reflexivity.
    + rewrite !on_select_items;
        cbn [QComboBox.items QComboBox.addItem QComboBox.clear app];
        destruct (bool_decide (emu_status w = stopped));
        cbn [app]; rewrite ?map_app, <- ?app_assoc, ?app_nil_r; reflexivity.
  - rewrite !on_select_items;
      cbn [QComboBox.items QComboBox.addItem QComboBox.clear app];
      destruct (bool_decide (emu_status w = stopped));
      cbn [app]; rewrite ?map_app, <- ?app_assoc, ?app_nil_r; reflexivity.
Qed.

Lemma count_addItem text v box :
  QComboBox.count (QComboBox.addItem text v box) = QComboBox.count box + 1.
Proof.
  unfold QComboBox.count, QComboBox.addItem. cbn [QComboBox.items].
  rewrite length_app. simpl. lia.
Qed.

Lemma last_entry_current text v box :
  let b := QComboBox.addItem text v box in
  let b' := QComboBox.setCurrentIndex (QComboBox.count b - 1) b in
  QComboBox.currentIndex b' = QComboBox.count box
  /\ QComboBox.count b' = QComboBox.count b
  /\ (In v (map snd (QComboBox.items b')) -> QComboBox.currentData b' = v).
Proof.
  cbv zeta. pose proof (count_addItem text v box) as Hc.
  assert (Hpos : 0 <= QComboBox.count box)
    by (unfold QComboBox.count; lia).
  unfold QComboBox.setCurrentIndex, QComboBox.currentData.
  cbn [QComboBox.currentIndex QComboBox.items].
  rewrite Hc.
  replace (QComboBox.count box + 1 - 1) with (QComboBox.count box) by lia.
  rewrite (proj2 (Z.leb_le _ _) Hpos).
  rewrite (proj2 (Z.ltb_lt (QComboBox.count box) (QComboBox.count box + 1)))
    by lia.
  cbn [andb]. split; [reflexivity|]. split; [exact Hc|]. intros _.
  rewrite (proj2 (Z.ltb_ge _ _) Hpos).
  unfold QComboBox.addItem, QComboBox.count. cbn [QComboBox.items].
  rewrite Nat2Z.id, nth_error_app2 by lia. rewrite Nat.sub_diag. reflexivity.
Qed.

(** Adding an entry, and making it current when it is [old], keeps the
    selection. *)
Lemma selection_kept_add old text v box :
  selection_kept old box ->
  selection_kept old
    (let b := QComboBox.addItem text v box in
     if bool_decide (old = v)
     then QComboBox.setCurrentIndex (QComboBox.count b - 1) b else b).
Proof.
  intros (Hi & Hin & Hout). cbv zeta.
  pose proof (count_addItem text v box) as Hc.
  assert (Hne : QComboBox.items box <> []).
  { unfold QComboBox.count in Hi. destruct (QComboBox.items box); [simpl in Hi; lia|].
    discriminate. }
  assert (Hidx : QComboBox.currentIndex (QComboBox.addItem text v box)
                 = QComboBox.currentIndex box).
  { unfold QComboBox.addItem. cbn [QComboBox.currentIndex].
    destruct (QComboBox.items box); [contradiction|reflexivity]. }
  assert (Hmap : map snd (QComboBox.items (QComboBox.addItem text v box))
                 = map snd (QComboBox.items box) ++ [v]).
  { unfold QComboBox.addItem. cbn [QComboBox.items]. rewrite map_app.
    reflexivity. }
  case_bool_decide as Hv.
  - (* the new entry is [old]: it becomes current *)
    subst v.
    destruct (last_entry_current text old box) as (Hl1 & Hl2 & Hl3).
    unfold selection_kept. rewrite Hl1, Hl2.
    split; [rewrite Hc; unfold QComboBox.count; lia|]. split; [exact Hl3|].
    intros Hn. exfalso. apply Hn.
    change (In old (map snd (QComboBox.items
                               (QComboBox.addItem text old box)))).
    rewrite Hmap. apply in_or_app. right. left. reflexivity.
  - (* another entry: index and current data stay *)
    unfold selection_kept. rewrite Hidx, Hc, Hmap.
    split; [lia|].
    assert (Hdata : QComboBox.currentData (QComboBox.addItem text v box)
                    = QComboBox.currentData box).
    { unfold QComboBox.currentData. rewrite Hidx.
      destruct (QComboBox.currentIndex box <? 0); [reflexivity|].
      unfold QComboBox.addItem. cbn [QComboBox.items].
      rewrite nth_error_app1; [reflexivity|].
      unfold QComboBox.count in Hi. lia. }
    rewrite Hdata. split.
    + intros [H|[H|[]]]%in_app_or; [auto | congruence].
    + intros Hn. apply Hout. intros H. apply Hn, in_or_app. left. exact H.
Qed.

Lemma selection_kept_fold emu_state old w l : forall box,
  selection_kept old box ->
  selection_kept old (fold_left (on_select emu_state old w) l box).
Proof.
  induction l as [|[i p] l IH]; intros box H; cbn [fold_left]; [exact H|].
  apply IH. unfold on_select.
  destruct (bool_decide (emu_state = stopped)); [exact H|].
  apply (selection_kept_add old _ _ box H).
Qed.

Lemma rebuilt_box_selection w box :
  selection_kept (QComboBox.currentData box) (rebuilt_box w box).
Proof.
  unfold rebuilt_box. cbv zeta. set (old := QComboBox.currentData box).
  assert (H0 : selection_kept old
                 (QComboBox.addItem NoThreadString Invalid
                    (QComboBox.clear box))).
  { unfold selection_kept.
    change (QComboBox.items (QComboBox.addItem NoThreadString Invalid
                    (QComboBox.clear box))) with [(NoThreadString, Invalid)].
    change (QComboBox.currentIndex (QComboBox.addItem NoThreadString Invalid
                    (QComboBox.clear box))) with 0.
    change (QComboBox.count (QComboBox.addItem NoThreadString Invalid
                    (QComboBox.clear box))) with 1.
    change (QComboBox.currentData (QComboBox.addItem NoThreadString Invalid
                    (QComboBox.clear box))) with Invalid.
    split; [lia|]. split.
    - intros [H|[]]. exact H.
    - reflexivity. }
  pose proof (selection_kept_fold (emu_status w) old w (idm_ppu w) _ H0) as H1.
  pose proof (selection_kept_fold (emu_status w) old w (idm_spu w) _ H1) as H2.
  destruct (fxo_rsx w) as [render|]; [|exact H2].
  destruct (_ && _); [|exact H2].
  apply (selection_kept_add old _ _ _ H2).
Qed.

(** X15 : a rebuild of the thread list keeps the selection by identity:
    when the entry that was current is in the rebuilt list it is current
    again, wherever it now stands; when it is not, the first entry ("No
    Thread") is current. *)
Theorem rebuild_keeps_selection flag_bit n w d :
  tallies_differ w d ->
  exists d',
    UpdateUnitList flag_bit (S n) w d = Some d'
    /\ let old := QComboBox.currentData (m_choice_units d) in
       let box := m_choice_units d' in
       QComboBox.items box = visible_list w
       /\ (In old (map snd (visible_list w)) -> QComboBox.currentData box = old)
       /\ (~ In old (map snd (visible_list w)) ->
           QComboBox.currentIndex box = 0
           /\ QComboBox.currentData box = Invalid).
Proof.
  intros Hd. unfold UpdateUnitList.
  rewrite (UpdateUnitList_with_rebuild _ _ _ Hd).
  match goal with
  | |- context [OnSelectUnit flag_bit (S n) w ?x] =>
      set (dx := x);
      assert (Hs : settled w dx) by (repeat split);
      destruct (OnSelectUnit_settled flag_bit w n dx Hs) as [d2 E]
  end.
  rewrite E. eexists. split; [reflexivity|].
  destruct (OnSelectUnit_keeps_list flag_bit w _ _ _ E Hs) as [_ Hb].
  change (m_choice_units (emit choice_units_update d2))
    with (m_choice_units d2).
  cbv zeta. rewrite Hb.
  change (m_choice_units dx) with (rebuilt_box w (m_choice_units d)).
  pose proof (rebuilt_box_items w (m_choice_units d)) as Hi.
  destruct (rebuilt_box_selection w (m_choice_units d)) as (Hr & Hin & Hout).
  rewrite Hi in Hin, Hout. split; [exact Hi|]. split; [exact Hin|].
  intros Hn. split; [apply Hout, Hn|].
  unfold QComboBox.currentData. rewrite (Hout Hn), Hi. reflexivity.
Qed.

Section Selection.

Variable flag_bit : cpu_flag.t -> N.

Lemma same_target_DoUpdate w d : same_target d (DoUpdate flag_bit w d).
Proof.
  apply (DoUpdate_Rel flag_bit w same_target (@same_target_trans)
           (@same_target_ui)).
  intros. split; auto.
Qed.

Lemma settled_DoUpdate w d : settled w d -> settled w (DoUpdate flag_bit w d).
Proof.
  intros Hs. destruct (keeps_list_closed w) as [Ht Hu].
  apply (DoUpdate_Rel flag_bit w (keeps_list w) Ht Hu); [|exact Hs].
  intros; intros ?; split; [assumption | reflexivity].
Qed.

(** The end of [OnSelectUnit], from [EnableButtons] on, keeps what was
    bound. *)
Lemma select_tail_target w n d2 d' :
  settled w d2 ->
  (let d3 := EnableButtons flag_bit w true d2 in
   let '(cpu4, d4) := get_cpu flag_bit w d3 in
   let d5 := emit (list_UpdateCPUData cpu4 (m_disasm d4)) d4 in
   let '(cpu6, d6) := get_cpu flag_bit w d5 in
   let d7 := emit (bplist_UpdateCPUData cpu6 (m_disasm d6)) d6 in
   UpdateUI flag_bit (S n) w (DoUpdate flag_bit w d7)) = Some d' ->
  same_target d2 d'.
Proof.
  intros Hs. cbv zeta.
  pose proof (EnableButtons_ui flag_bit w true d2) as H3.
  set (d3 := EnableButtons flag_bit w true d2) in *. clearbody d3.
  destruct (get_cpu_split flag_bit w d3) as (c4 & d4 & -> & H4).
  match goal with
  | |- context [get_cpu flag_bit w ?x] =>
      pose proof (emit_ui (list_UpdateCPUData c4 (m_disasm d4)) d4) as H5;
      set (d5 := x) in *; clearbody d5;
      destruct (get_cpu_split flag_bit w d5) as (c6 & d6 & -> & H6)
  end.
  match goal with
  | |- context [DoUpdate flag_bit w ?x] =>
      pose proof (emit_ui (bplist_UpdateCPUData c6 (m_disasm d6)) d6) as H7;
      set (d7 := x) in *; clearbody d7
  end.
  assert (U : ui_step d2 d7).
  { eapply ui_step_trans; [exact H3|]. eapply ui_step_trans; [exact H4|].
    eapply ui_step_trans; [exact H5|]. eapply ui_step_trans; [exact H6|].
    exact H7. }
  intros E.
  eapply same_target_trans; [apply same_target_ui, U|].
  eapply same_target_trans; [apply same_target_DoUpdate|].
  apply (UpdateUI_settled_target flag_bit w n _ _
           (settled_DoUpdate w d7 (settled_ui w d2 d7 Hs U)) E).
Qed.

(** X16 : when the emulator is stopped, a rebuild of the list leaves the
    single entry "No Thread", and the frame holds no thread, no RSX pointer
    and no disassembler. *)
Theorem stopped_list_is_empty n w d :
  emu_status w = stopped ->
  tallies_differ w d ->
  exists d',
    UpdateUnitList flag_bit (S n) w d = Some d'
    /\ QComboBox.items (m_choice_units d') = [(NoThreadString, Invalid)]
    /\ QComboBox.currentIndex (m_choice_units d') = 0
    /\ m_cpu d' = None /\ m_rsx d' = None /\ m_disasm d' = None.
Proof.
  intros Hst Hd. unfold UpdateUnitList.
  rewrite (UpdateUnitList_with_rebuild _ _ _ Hd).
  assert (Hbox : rebuilt_box w (m_choice_units d)
                 = QComboBox.mk [(NoThreadString, Invalid)] 0).
  { unfold rebuilt_box. cbv zeta. rewrite Hst.
    change (bool_decide (stopped = stopped)) with true. cbn [negb andb].
    assert (F : forall l b,
              fold_left (on_select stopped
                           (QComboBox.currentData (m_choice_units d)) w) l b
              = b).
    { induction l as [|[i p] l IH]; intros b; [reflexivity|].
      cbn [fold_left]. rewrite <- (IH b) at 2. reflexivity. }
    rewrite !F. destruct (fxo_rsx w); reflexivity. }
  rewrite Hbox.
  match goal with
  | |- context [OnSelectUnit flag_bit (S n) w ?x] =>
      set (dx := x);
      assert (Hs : settled w dx) by (repeat split);
      destruct (OnSelectUnit_settled flag_bit w n dx Hs) as [d2 E]
  end.
  rewrite E. eexists. split; [reflexivity|].
  change (m_choice_units (emit choice_units_update d2))
    with (m_choice_units d2).
  change (m_cpu (emit choice_units_update d2)) with (m_cpu d2).
  change (m_rsx (emit choice_units_update d2)) with (m_rsx d2).
  change (m_disasm (emit choice_units_update d2)) with (m_disasm d2).
  destruct (OnSelectUnit_keeps_list flag_bit w _ _ _ E Hs) as [_ Hb].
  rewrite Hb. split; [reflexivity|]. split; [reflexivity|].
  revert E. unfold OnSelectUnit, OnSelectUnit_with.
  change (QComboBox.count (m_choice_units dx) <? 1) with false.
  change (QComboBox.currentData (m_choice_units dx)) with Invalid.
  change (m_emu_state dx) with (emu_status w). rewrite Hst.
  change (bool_decide (stopped = stopped)) with true.
  cbn [negb value_weak value_rsx expired].
  set (d1 := with_rsx None (with_cpu None (with_disasm None dx))).
  destruct (get_cpu_split flag_bit w (with_rsx None d1))
    as (c & d1' & G & H1).
  assert (Hc : c = None).
  { pose proof (get_cpu_rsx flag_bit w (with_rsx None d1)) as R.
    change (m_cpu (with_rsx None d1)) with (@None ptr) in R.
    pose proof (get_cpu_exclusive flag_bit w (with_rsx None d1)) as X.
    rewrite G in *. cbn [fst snd] in *.
    destruct H1 as [_ [Hr|Hr] _ _ _ _ _ _ _ _ _ _];
      destruct c as [r|]; try reflexivity; exfalso.
    all: revert G; unfold get_cpu;
      change (m_cpu (with_rsx None d1)) with (@None ptr); cbv iota;
      change (m_rsx (with_rsx None d1)) with (@None ptr);
      case_bool_decide; cbn; discriminate. }
  rewrite G. subst c.
  intros E. apply select_tail_target in E.
  - destruct E as [Ec Ed Er _]. destruct H1 as [Uc Ur Ud _ _ _ _ _ _ _ _ _].
    rewrite Ec, Ed, Uc, Ud. split; [reflexivity|]. split; [|reflexivity].
    destruct Er as [Er|Er]; [|exact Er]. rewrite Er.
    destruct Ur as [Ur|Ur]; [|exact Ur]. rewrite Ur. reflexivity.
  - apply (settled_ui w (with_rsx None d1)); [|exact H1]. repeat split.
Qed.

End Selection.

Section Binding.

Variable flag_bit : cpu_flag.t -> N.


End Binding.

Section Keys.

Variable flag_bit : cpu_flag.t -> N.
Variable op_branch_targets_spu : Z -> Z -> Z * Z.
Variable op_branch_targets_ppu : Z -> Z -> Z * Z.
Variable toULong16 : string -> option Z.

Lemma EvaluateExpression_resolved w d text :
  fst (EvaluateExpression flag_bit toULong16 w
         (snd (get_cpu flag_bit w d)) text)
  = fst (EvaluateExpression flag_bit toULong16 w d text).
Proof.
  unfold EvaluateExpression. destruct (toULong16 _); [reflexivity|].
  rewrite get_cpu_again.
  destruct (get_cpu flag_bit w d) as [[p|] d1]; reflexivity.
Qed.

Lemma EvaluateExpression_emitted w d text :
  emitted (snd (EvaluateExpression flag_bit toULong16 w d text)) = emitted d.
Proof.
  unfold EvaluateExpression. destruct (toULong16 _); [reflexivity|].
  pose proof (get_cpu_emitted flag_bit w d) as H.
  destruct (get_cpu flag_bit w d) as [[p|] d1]; exact H.
Qed.

(** X18 : the "Go To Address" dialog makes no call when it is cancelled;
    when it is accepted it makes exactly one, [ShowAddress] at the value of
    [EvaluateExpression] cut to 32 bits. *)
Theorem goto_dialog_calls w d answer :
  let d' := ShowGotoAddressDialog flag_bit toULong16 w d answer in
  match answer with
  | None => emitted d' = emitted d
  | Some text =>
      let a := wrap32 (fst (EvaluateExpression flag_bit toULong16 w d text)) in
      emitted d' = emitted d ++ [ShowAddress a None] /\ 0 <= a < 2 ^ 32
  end.
Proof.
  cbv zeta. unfold ShowGotoAddressDialog.
  pose proof (get_cpu_emitted flag_bit w d) as H1.
  pose proof (EvaluateExpression_resolved w d) as R1.
  destruct (get_cpu flag_bit w d) as [c1 d1]. cbn [snd] in H1, R1.
  pose proof (get_cpu_emitted flag_bit w d1) as H2.
  pose proof (EvaluateExpression_resolved w d1) as R2.
  destruct (get_cpu flag_bit w d1) as [c2 d2]. cbn [snd] in H2, R2.
  destruct answer as [text|]; [|congruence].
  pose proof (EvaluateExpression_emitted w d2 text) as H3.
  specialize (R1 text). specialize (R2 text).
  destruct (EvaluateExpression flag_bit toULong16 w d2 text) as [res d3].
  cbn [fst snd] in *. split.
  - change (emitted (emit (ShowAddress (wrap32 res) None) d3))
      with (emitted d3 ++ [ShowAddress (wrap32 res) None]).
    congruence.
  - unfold wrap32. apply Z.mod_pos_bound. lia.
Qed.


(** X20 : with a thread to act on, F10 is the "Step Over" button and F11
    the "Step" button: the key press and the click give the same emulator
    and the same frame. *)
Theorem step_keys_are_buttons depth ev w d :
  isActiveWindow ev = true ->
  ControlModifier ev = false ->
  fst (get_cpu flag_bit w d) <> None ->
  (key ev = Key_F10 ->
   keyPressEvent flag_bit op_branch_targets_spu op_branch_targets_ppu
     toULong16 depth ev w d = DoStep flag_bit depth true w d)
  /\ (key ev = Key_F11 ->
      keyPressEvent flag_bit op_branch_targets_spu op_branch_targets_ppu
        toULong16 depth ev w d = DoStep flag_bit depth false w d).
Proof.
  intros Ha Hc Hcpu.
  assert (K : forall s,
            DoStep flag_bit depth s w (snd (get_cpu flag_bit w d))
            = DoStep flag_bit depth s w d).
  { intros s. unfold DoStep. rewrite get_cpu_again.
    destruct (get_cpu flag_bit w d) as [c d1]. reflexivity. }
  unfold keyPressEvent. rewrite Ha, Hc. cbn [negb].
  destruct (get_cpu flag_bit w d) as [[p|] d1]; [|destruct (Hcpu eq_refl)].
  cbn [snd] in K. split; intros ->; apply K.
Qed.

End Keys.

Section PollTrace.

Variable flag_bit : cpu_flag.t -> N.


End PollTrace.

(** ** The further properties on concrete states *)

Lemma refresh_twice_paused :
  exists d1,
    UpdateUnitList sample_flag_bit 1 emu_paused_world fresh_frame = Some d1
    /\ settled emu_paused_world d1
    /\ UpdateUnitList sample_flag_bit 1 emu_paused_world d1 = Some d1.
Proof.
  destruct (UpdateUnitList_total sample_flag_bit emu_paused_world 0
              fresh_frame) as [d1 E].
  exists d1. split; [exact E|].
  apply (refresh_twice sample_flag_bit emu_paused_world 1 1 fresh_frame d1 E).
Defined.

Lemma poll_twice_reached :
  exists d',
    UpdateUI sample_flag_bit 2 paused_world reached_frame = Some d'
    /\ UpdateUI sample_flag_bit 2 paused_world d' = Some d'.
Proof.
  destruct (UpdateUI_total sample_flag_bit paused_world 0 reached_frame)
    as [d' E].
  exists d'. split; [exact E|].
  apply (poll_twice sample_flag_bit paused_world 2 1 reached_frame d' E).
Defined.

Lemma poll_silent_iff_unchanged_fresh :
  exists d',
    UpdateUI sample_flag_bit 1 paused_world fresh_frame = Some d'
    /\ (poll_unchanged sample_flag_bit paused_world fresh_frame
        <-> emitted d' = emitted fresh_frame).
Proof.
  apply (poll_silent_iff_unchanged sample_flag_bit paused_world 0 fresh_frame).
  split; [reflexivity|]. split; reflexivity.
Defined.

Lemma poll_never_adds_breakpoint_reached :
  exists d',
    UpdateUI sample_flag_bit 2 paused_world reached_frame = Some d'
    /\ m_breakpoint_handler d' ⊆ m_breakpoint_handler reached_frame
    /\ (m_last_step_over_breakpoint d'
        = m_last_step_over_breakpoint reached_frame
        \/ m_last_step_over_breakpoint d' = umax).
Proof.
  destruct (UpdateUI_total sample_flag_bit paused_world 0 reached_frame)
    as [d' E].
  exists d'. split; [exact E|].
  apply (poll_never_adds_breakpoint sample_flag_bit paused_world 2
           reached_frame d').
  left. exact E.
Defined.

Lemma exclusive_preserved_fresh :
  exclusive (ShowGotoAddressDialog sample_flag_bit sample_toULong16
               paused_world fresh_frame (Some "1004"%string)).
Proof.
  apply (exclusive_preserved sample_flag_bit no_targets no_targets
           sample_toULong16 2 paused_world fresh_frame).
  right. reflexivity.
Defined.

Lemma step_over_degenerates_spu :
  DoStep sample_flag_bit 2 true spu_world spu_frame
  = DoStep sample_flag_bit 2 false spu_world spu_frame.
Proof.
  apply (step_over_degenerates sample_flag_bit 2 spu_world spu_frame).
  intros p H. vm_compute in H. injection H as <-. vm_compute. discriminate.
Defined.

Lemma step_over_flags_paused :
  exists w' d',
    DoStep sample_flag_bit 2 true paused_world fresh_frame = Some (w', d')
    /\ cpu_thread.state (deref w' 1%N) = 0%N
    /\ notified w' = [1%N].
Proof.
  destruct (step_over_flags sample_flag_bit sample_flag_bit_inj 0
              paused_world fresh_frame 1%N ppu_paused
              eq_refl eq_refl eq_refl eq_refl)
    as (w' & d' & E & Hs & _ & _ & Hn & _).
  exists w', d'. auto.
Defined.




Lemma next_instruction_target_spu :
  exists d',
    keyPressEvent sample_flag_bit fall_through no_targets sample_toULong16 2
      press_N spu_world spu_frame = Some (spu_world, d')
    /\ emitted d'
       = emitted spu_frame
         ++ [ls_ref 2%N 4100; ShowAddress 4104 (Some true)].
Proof.
  apply (next_instruction_target sample_flag_bit fall_through no_targets
           sample_toULong16 2 press_N spu_world spu_frame 2%N 4104 umax
           (ls_ref 2%N 4100) 4104 eq_refl eq_refl eq_refl eq_refl).
  - left. split; [reflexivity|]. split; reflexivity.
  - right. split; [reflexivity|]. split; [discriminate | reflexivity].
Defined.

Lemma rebuild_keeps_selection_paused :
  exists d',
    UpdateUnitList sample_flag_bit 1 emu_paused_world fresh_frame = Some d'
    /\ QComboBox.items (m_choice_units d') = visible_list emu_paused_world
    /\ (In (VWeak (Some 1%N)) (map snd (visible_list emu_paused_world)) ->
        QComboBox.currentData (m_choice_units d') = VWeak (Some 1%N))
    /\ (~ In (VWeak (Some 1%N)) (map snd (visible_list emu_paused_world)) ->
        QComboBox.currentIndex (m_choice_units d') = 0
        /\ QComboBox.currentData (m_choice_units d') = Invalid).
Proof.
  apply (rebuild_keeps_selection sample_flag_bit 0 emu_paused_world
           fresh_frame).
  right. right. discriminate.
Defined.

Lemma stopped_list_is_empty_fresh :
  exists d',
    UpdateUnitList sample_flag_bit 1 stopped_world fresh_frame = Some d'
    /\ QComboBox.items (m_choice_units d') = [(NoThreadString, Invalid)]
    /\ QComboBox.currentIndex (m_choice_units d') = 0
    /\ m_cpu d' = None /\ m_rsx d' = None /\ m_disasm d' = None.
Proof.
  apply (stopped_list_is_empty sample_flag_bit 0 stopped_world fresh_frame);
    [reflexivity|].
  right. right. discriminate.
Defined.



Lemma step_keys_are_buttons_F10 :
  keyPressEvent sample_flag_bit no_targets no_targets sample_toULong16 2
    press_F10 paused_world fresh_frame
  = DoStep sample_flag_bit 2 true paused_world fresh_frame.
Proof.
  apply (step_keys_are_buttons sample_flag_bit no_targets no_targets
           sample_toULong16 2 press_F10 paused_world fresh_frame);
    [reflexivity | reflexivity | discriminate | reflexivity].
Defined.

